(** * Shallow embedding of the render manager and the shot model of
    sabarnac/opengl-tutorial (src/include/render.cpp, src/include/constants.cpp,
    src/models/shot_model.cpp).

    Numeric conventions: GLuint/int/size_t quantities are [Z] (all values met
    here are small, no wrap-around is reached); glm float vectors and the
    double timestamps of glfwGetTime are exact rationals [Q].  Matrices
    (glm::mat4) are an abstract carrier with their product, since the math
    library is an external collaborator. *)

From Stdlib Require Import String Ascii List ZArith QArith Bool Lia DecimalString.
Import ListNotations.
Open Scope string_scope.
Open Scope list_scope.

(** ** std::map<std::string, V>

    A std::map is a finite map whose iteration order is ascending key order
    ([std::less<std::string>], i.e. lexicographic on unsigned bytes, which is
    [String.ltb]).  It is modelled as an association list kept in that order. *)
Module StdMap.
Section StdMap.
Variable V : Type.

Definition t := list (string * V).

Definition empty : t := [].

(** [std::map::find] *)
Fixpoint find (k : string) (m : t) : option V :=
  match m with
  | [] => None
  | (k', v) :: m' => if String.eqb k k' then Some v else find k m'
  end.

(** Positional insertion of a fresh key, keeping ascending key order. *)
Fixpoint insert_sorted (k : string) (v : V) (m : t) : t :=
  match m with
  | [] => [(k, v)]
  | (k', v') :: m' =>
      if String.ltb k k' then (k, v) :: m
      else (k', v') :: insert_sorted k v m'
  end.

(** [std::map::insert(std::pair(k, v))]: inserts only if the container does
    not already hold an element with an equivalent key; otherwise the map is
    left as it is. *)
Definition insert (k : string) (v : V) (m : t) : t :=
  match find k m with
  | Some _ => m
  | None => insert_sorted k v m
  end.

(** [std::map::erase(key)]: removes the element with that key, if any. *)
Fixpoint erase (k : string) (m : t) : t :=
  match m with
  | [] => []
  | (k', v') :: m' =>
      if String.eqb k k' then erase k m' else (k', v') :: erase k m'
  end.

(** Iteration [for (it = m.begin(); it != m.end(); it++) ... it->second]. *)
Definition values (m : t) : list V := map snd m.

(** Insert, replacing the element already held under [k]. *)
Definition insert_or_assign (k : string) (v : V) (m : t) : t :=
  insert_sorted k v (erase k m).

End StdMap.
Arguments empty {V}.
Arguments find {V} k m.
Arguments insert_sorted {V} k v m.
Arguments insert {V} k v m.
Arguments erase {V} k m.
Arguments values {V} m.
Arguments insert_or_assign {V} k v m.
End StdMap.

(** ** The registries of RenderManager (render.cpp lines 94-96, 122-165)

    [registeredLights], [registeredModels] and [registeredCameras] are three
    std::map<std::string, std::shared_ptr<T>> keyed by the entity's own
    identifier ([getLightId], [getModelId], [getCameraId]).  The three pairs of
    [registerX]/[deregisterX] are the same code over a different entity type,
    so they are stated once over an entity type [E] with its identifier. *)
Module Registry.
Section Registry.
Variable E : Type.
Variable getId : E -> string.

(** [registerLight] / [registerModel] / [registerCamera] *)
Definition register (x : E) (r : StdMap.t E) : StdMap.t E :=
  StdMap.insert (getId x) x r.

(** [deregisterLight(std::string)] / [deregisterModel(std::string)] /
    [deregisterCamera(std::string)] *)
Definition deregister_id (id : string) (r : StdMap.t E) : StdMap.t E :=
  StdMap.erase id r.

(** [deregisterLight(shared_ptr)] / ... : erase by the entity's identifier. *)
Definition deregister (x : E) (r : StdMap.t E) : StdMap.t E :=
  StdMap.erase (getId x) r.

End Registry.
Arguments register {E} getId x r.
Arguments deregister_id {E} id r.
Arguments deregister {E} getId x r.
End Registry.

(** ** Shared data: glm::vec3 and std::to_string *)

Record vec3 := mkVec3 { vx : Q; vy : Q; vz : Q }.

Definition vec3_sub (a b : vec3) : vec3 :=
  mkVec3 (vx a - vx b) (vy a - vy b) (vz a - vz b).

(** [std::to_string] on the non-negative loop indices of render.cpp. *)
Definition to_string (n : nat) : string :=
  NilZero.string_of_uint (Nat.to_uint n).

(** ** constants.cpp *)
Definition WINDOW_WIDTH : Z := 800.
Definition WINDOW_HEIGHT : Z := 600.
Definition MAX_CONE_LIGHTS : Z := 4.
Definition MAX_POINT_LIGHTS : Z := 6.
(** The mutable globals, at the values their static initialisers give them. *)
Definition VIEWPORT_WIDTH : Z := WINDOW_WIDTH.
Definition VIEWPORT_HEIGHT : Z := WINDOW_HEIGHT.
Definition FRAMEBUFFER_WIDTH : Z := VIEWPORT_WIDTH * 2.
Definition FRAMEBUFFER_HEIGHT : Z := VIEWPORT_HEIGHT * 2.

(** ** RenderManager (render.cpp)

    The GPU side is observed through the sequence of OpenGL and WindowManager
    calls the manager issues; a [glGetUniformLocation(program, name)]
    followed by a [glUniform*] on that location is one [Uniform] event. *)
Module Render.

Inductive ShadowBufferType := SIMPLE | CUBE.

Inductive target := GL_TEXTURE_2D | GL_TEXTURE_CUBE_MAP.

Section Render.
(** glm::mat4, its product, and the default-constructed [glm::mat4()]. *)
Variable M : Type.
Variable mmul : M -> M -> M.
Variable mat4_default : M.

Record ShadowBufferDetails := {
  getShadowBufferId : Z;
  getShadowBufferTextureId : Z;
  getShadowBufferType : ShadowBufferType }.

(** The parts of a LightBase that render.cpp reads. *)
Record LightBase := {
  getLightId : string;
  getLightPosition : vec3;
  getLightColor : vec3;
  getLightIntensity : Q;
  getNearPlane : Q;
  getFarPlane : Q;
  getViewMatrices : list M;
  getProjectionMatrices : list M;
  getShadowBufferDetails : ShadowBufferDetails;
  getLightShaderId : Z }.

Record ObjectDetails := {
  getVertexBufferId : Z;
  getUvBufferId : Z;
  getNormalBufferId : Z;
  getBufferSize : Z }.

(** The parts of a ModelBase that render.cpp reads. *)
Record ModelBase := {
  getModelId : string;
  getModelShaderId : Z;
  getModelTextureId : Z;
  getObjectDetails : ObjectDetails;
  getModelMatrix : M }.

Record CameraBase := {
  getCameraId : string;
  getViewMatrix : M;
  getProjectionMatrix : M }.

Record LightDetails := {
  lightPosition : vec3;
  lightVpMatrix : M;
  lightColor : vec3;
  lightIntensity : Q;
  mapWidth : Z;
  mapHeight : Z;
  nearPlane : Q;
  farPlane : Q;
  textureId : Z }.

Record RenderManager := {
  activeCameraId : string;
  deadSimpleLight : LightBase;
  deadCubeLight : LightBase;
  registeredLights : StdMap.t LightBase;
  registeredModels : StdMap.t ModelBase;
  registeredCameras : StdMap.t CameraBase;
  startTime : Q;
  lastTime : Q;
  (** [VertexAttributeArray::attributeIds] *)
  attributeIds : list Z }.

Definition ambientFactor : Q := 1 # 4.

Inductive uval :=
| UInt (z : Z)
| UFloat (q : Q)
| UVec3 (v : vec3)
| UMat (m : M).

Inductive glcall :=
| SwitchToFrameBufferViewport
| SwitchToWindowViewport
| SetClearColor (r g b a : Q)
| ClearScreen
| BindFramebuffer (fb : Z)
| UseProgram (sid : Z)
| Uniform (sid : Z) (name : string) (v : uval)
| ActiveTexture (unit : Z)
| BindTexture (tg : target) (tex : Z)
| EnableVertexAttribArray (attr buf size : Z)
| DisableVertexAttribArray (attr : Z)
| DrawArrays (count : Z).

(** *** VertexAttributeArray *)

(** [createAttributeId]: the least identifier not in [attributeIds]; among
    the first [length used + 1] candidates one is free. *)
Fixpoint first_free (fuel : nat) (i : Z) (used : list Z) : Z :=
  match fuel with
  | O => i
  | S f => if existsb (Z.eqb i) used then first_free f (i + 1) used else i
  end.

Definition createAttributeId (used : list Z) : Z :=
  first_free (S (length used)) 0 used.

(** Construct one VertexAttributeArray per (buffer, element size), in order. *)
Fixpoint alloc_arrays (used : list Z) (arrays : list (Z * Z)) : list (Z * Z * Z) :=
  match arrays with
  | [] => []
  | (buf, sz) :: rest =>
      let id := createAttributeId used in
      (id, buf, sz) :: alloc_arrays (id :: used) rest
  end.

(** Construct the arrays, [enableAttribute] each, [glDrawArrays], then the
    destructors run in reverse order of construction, each erasing its id
    from [attributeIds] and calling [glDisableVertexAttribArray]. *)
Definition draw_with_arrays (used : list Z) (arrays : list (Z * Z)) (count : Z)
  : list glcall :=
  let a := alloc_arrays used arrays in
  map (fun '(id, buf, sz) => EnableVertexAttribArray id buf sz) a
  ++ [DrawArrays count]
  ++ map (fun '(id, _, _) => DisableVertexAttribArray id) (rev a).


(** *** renderLights (render.cpp lines 177-265) *)

(** The categorizedLights map, created with both keys present
    ({{SIMPLE, {}}, {CUBE, {}}}); [operator[]] on either key returns its
    vector. *)
Record Categorized := { cat_simple : list LightDetails; cat_cube : list LightDetails }.

Definition empty_categorized : Categorized := {| cat_simple := []; cat_cube := [] |}.

Definition cat_get (c : Categorized) (ty : ShadowBufferType) : list LightDetails :=
  match ty with SIMPLE => cat_simple c | CUBE => cat_cube c end.

(** [categorizedLights[ty].push_back(ld)] *)
Definition cat_push (c : Categorized) (ty : ShadowBufferType) (ld : LightDetails)
  : Categorized :=
  match ty with
  | SIMPLE => {| cat_simple := cat_simple c ++ [ld]; cat_cube := cat_cube c |}
  | CUBE => {| cat_simple := cat_simple c; cat_cube := cat_cube c ++ [ld] |}
  end.

(** [vector[i]]; every light holds its 1 or 6 matrices, so the index is in
    range wherever the code reads it. *)
Definition at_ (ms : list M) (i : nat) : M := nth i ms mat4_default.

(** The LightDetails aggregate of lines 186-195, fields in declaration order. *)
Definition light_details (l : LightBase) : LightDetails := {|
  lightPosition := getLightPosition l;
  lightVpMatrix :=
    mmul (mmul (at_ (getProjectionMatrices l) 0) (at_ (getViewMatrices l) 0))
         mat4_default;
  lightColor := getLightColor l;
  lightIntensity := getLightIntensity l;
  mapWidth := FRAMEBUFFER_WIDTH;
  mapHeight := FRAMEBUFFER_WIDTH;
  nearPlane := getNearPlane l;
  farPlane := getFarPlane l;
  textureId := getShadowBufferTextureId (getShadowBufferDetails l) |}.

(** The same uniform uploaded to the vertex, geometry and fragment stages:
    [pre ++ "_vertex" ++ field], [pre ++ "_geometry" ++ field], ... *)
Definition uniform3 (sid : Z) (pre field : string) (v : uval) : list glcall :=
  map (fun stage => Uniform sid (pre ++ "_" ++ stage ++ field)%string v)
      ["vertex"; "geometry"; "fragment"].

(** Inner loop body of renderLights: one model drawn into a light's shadow
    buffer (lines 212-259). *)
Definition shadow_model_calls (used : list Z) (l : LightBase) (ld : LightDetails)
    (m : ModelBase) : list glcall :=
  let sid := getLightShaderId l in
  let views := getViewMatrices l in
  let projs := getProjectionMatrices l in
  uniform3 sid "lightDetails" ".vpMatrixCount" (UInt (Z.of_nat (length views)))
  ++ uniform3 sid "lightDetails" ".lightPosition" (UVec3 (lightPosition ld))
  ++ uniform3 sid "projectionDetails" ".nearPlane" (UFloat (nearPlane ld))
  ++ uniform3 sid "projectionDetails" ".farPlane" (UFloat (farPlane ld))
  ++ [Uniform sid "modelMatrix" (UMat (getModelMatrix m))]
  ++ flat_map (fun i =>
       uniform3 sid "lightDetails" (".vpMatrices[" ++ to_string i ++ "]")%string
         (UMat (mmul (at_ projs i) (at_ views i))))
       (seq 0 (length views))
  ++ draw_with_arrays used [(getVertexBufferId (getObjectDetails m), 3%Z)]
       (getBufferSize (getObjectDetails m)).

(** Outer loop of renderLights over the lights in map order, threading the
    cached [shaderId] and the categorized map. *)
Fixpoint shadow_pass (rm : RenderManager) (shaderId : Z) (lights : list LightBase)
    (cat : Categorized) : list glcall * Categorized :=
  match lights with
  | [] => ([], cat)
  | l :: ls =>
      let ld := light_details l in
      let cat' := cat_push cat (getShadowBufferType (getShadowBufferDetails l)) ld in
      let sid := getLightShaderId l in
      let head :=
        [BindFramebuffer (getShadowBufferId (getShadowBufferDetails l)); ClearScreen]
        ++ (if Z.eqb shaderId sid then [] else [UseProgram sid]) in
      let body :=
        flat_map (shadow_model_calls (attributeIds rm) l ld)
                 (StdMap.values (registeredModels rm)) in
      let '(tr, cat'') := shadow_pass rm sid ls cat' in
      (head ++ body ++ [BindFramebuffer 0] ++ tr, cat'')
  end.

(** The shadow block of one light, as [shadow_pass] emits it. *)
Definition light_block (rm : RenderManager) (shaderId : Z) (l : LightBase)
  : list glcall :=
  let sid := getLightShaderId l in
  [BindFramebuffer (getShadowBufferId (getShadowBufferDetails l)); ClearScreen]
  ++ (if Z.eqb shaderId sid then [] else [UseProgram sid])
  ++ flat_map (shadow_model_calls (attributeIds rm) l (light_details l))
              (StdMap.values (registeredModels rm))
  ++ [BindFramebuffer 0].

Definition renderLights (rm : RenderManager) : list glcall * Categorized :=
  let '(tr, cat) :=
    shadow_pass rm (-1) (StdMap.values (registeredLights rm)) empty_categorized in
  ([SwitchToFrameBufferViewport; SetClearColor 1 1 1 1] ++ tr, cat).

(** *** renderModels (render.cpp lines 267-449) *)

(** Uniform [pre ++ "_vertex[i]" ++ field] and [pre ++ "_fragment[i]" ++ field]. *)
Definition uniform2 (sid : Z) (pre : string) (i : nat) (field : string) (v : uval)
  : list glcall :=
  map (fun stage => Uniform sid (pre ++ "_" ++ stage ++ "[" ++ to_string i ++ "]" ++ field)%string v)
      ["vertex"; "fragment"].

Definition light_detail_uniforms (sid : Z) (pre : string) (i : nat) (ld : LightDetails)
  : list glcall :=
  uniform2 sid pre i ".lightPosition" (UVec3 (lightPosition ld))
  ++ uniform2 sid pre i ".lightVpMatrix" (UMat (lightVpMatrix ld))
  ++ uniform2 sid pre i ".lightColor" (UVec3 (lightColor ld))
  ++ uniform2 sid pre i ".lightIntensity" (UFloat (lightIntensity ld))
  ++ uniform2 sid pre i ".mapWidth" (UInt (mapWidth ld))
  ++ uniform2 sid pre i ".mapHeight" (UInt (mapHeight ld))
  ++ uniform2 sid pre i ".nearPlane" (UFloat (nearPlane ld))
  ++ uniform2 sid pre i ".farPlane" (UFloat (farPlane ld)).

(** Loop of lines 323-371, iteration [i]. *)
Definition simple_light_calls (sid : Z) (i : nat) (ld : LightDetails) : list glcall :=
  light_detail_uniforms sid "simpleLightDetails" i ld
  ++ [ActiveTexture (Z.of_nat i + 1);
      BindTexture GL_TEXTURE_2D (textureId ld);
      Uniform sid ("simpleLightTextures[" ++ to_string i ++ "]")%string (UInt (Z.of_nat i + 1))].

(** Loop of lines 372-378, iteration [i]. *)
Definition simple_dead_calls (sid : Z) (deadTex : Z) (i : nat) : list glcall :=
  [ActiveTexture (Z.of_nat i + 1);
   BindTexture GL_TEXTURE_2D deadTex;
   Uniform sid ("simpleLightTextures[" ++ to_string i ++ "]")%string (UInt (Z.of_nat i + 1))].

(** Loop of lines 380-428, iteration [i]; [nsimple] is
    [categorizedLights[SIMPLE].size()]. *)
Definition cube_light_calls (sid : Z) (nsimple : nat) (i : nat) (ld : LightDetails)
  : list glcall :=
  light_detail_uniforms sid "cubeLightDetails" i ld
  ++ [ActiveTexture (Z.of_nat i + 8);
      BindTexture GL_TEXTURE_CUBE_MAP (textureId ld);
      Uniform sid ("cubeLightTextures[" ++ to_string i ++ "]")%string
        (UInt (Z.of_nat nsimple + Z.of_nat i + 8))].

(** Loop of lines 429-435, iteration [i]. *)
Definition cube_dead_calls (sid : Z) (nsimple : nat) (deadTex : Z) (i : nat)
  : list glcall :=
  [ActiveTexture (Z.of_nat i + 8);
   BindTexture GL_TEXTURE_CUBE_MAP deadTex;
   Uniform sid ("cubeLightTextures[" ++ to_string i ++ "]")%string
     (UInt (Z.of_nat nsimple + Z.of_nat i + 8))].

(** [for (i = start; i < start + length l; i++) f i l[i]] *)
Fixpoint indexed_calls (f : nat -> LightDetails -> list glcall) (i : nat)
    (l : list LightDetails) : list glcall :=
  match l with
  | [] => []
  | ld :: l' => f i ld ++ indexed_calls f (S i) l'
  end.

(** The texture bindings of one model draw (lines 319-435). *)
Definition texture_calls (rm : RenderManager) (cat : Categorized) (m : ModelBase)
  : list glcall :=
  let sid := getModelShaderId m in
  let simple := cat_simple cat in
  let cube := cat_cube cat in
  [ActiveTexture 0;
   BindTexture GL_TEXTURE_2D (getModelTextureId m);
   Uniform sid "diffuseTexture" (UInt 0)]
  ++ indexed_calls (simple_light_calls sid) 0 simple
  ++ flat_map (simple_dead_calls sid
                 (getShadowBufferTextureId (getShadowBufferDetails (deadSimpleLight rm))))
       (seq (length simple) (7 - length simple))
  ++ indexed_calls (cube_light_calls sid (length simple)) 0 cube
  ++ flat_map (cube_dead_calls sid (length simple)
                 (getShadowBufferTextureId (getShadowBufferDetails (deadCubeLight rm))))
       (seq (length cube) (8 - length cube)).

(** Loop body of renderModels for one model, after the program switch
    (lines 289-445). *)
Definition model_calls (rm : RenderManager) (cat : Categorized) (deltaTime totalTime : Q)
    (viewMatrix projectionMatrix : M) (m : ModelBase) : list glcall :=
  let sid := getModelShaderId m in
  let modelMatrix := getModelMatrix m in
  let od := getObjectDetails m in
  [Uniform sid "modelDetails.modelMatrix" (UMat modelMatrix);
   Uniform sid "modelDetails.viewMatrix" (UMat viewMatrix);
   Uniform sid "modelDetails.projectionMatrix" (UMat projectionMatrix);
   Uniform sid "modelDetails.mvpMatrix"
     (UMat (mmul (mmul (mmul projectionMatrix viewMatrix) modelMatrix) mat4_default));
   Uniform sid "timeDetails.totalTime" (UFloat totalTime);
   Uniform sid "timeDetails.deltaTime" (UFloat deltaTime);
   Uniform sid "ambientFactor" (UFloat ambientFactor);
   Uniform sid "simpleLightsCount" (UInt (Z.of_nat (length (cat_simple cat))));
   Uniform sid "cubeLightsCount" (UInt (Z.of_nat (length (cat_cube cat))))]
  ++ texture_calls rm cat m
  ++ draw_with_arrays (attributeIds rm)
       [(getVertexBufferId od, 3%Z); (getUvBufferId od, 2%Z); (getNormalBufferId od, 3%Z)]
       (getBufferSize od).

Fixpoint main_pass (rm : RenderManager) (cat : Categorized) (deltaTime totalTime : Q)
    (viewMatrix projectionMatrix : M) (shaderId : Z) (models : list ModelBase)
  : list glcall :=
  match models with
  | [] => []
  | m :: ms =>
      let sid := getModelShaderId m in
      (if Z.eqb shaderId sid then [] else [UseProgram sid])
      ++ model_calls rm cat deltaTime totalTime viewMatrix projectionMatrix m
      ++ main_pass rm cat deltaTime totalTime viewMatrix projectionMatrix sid ms
  end.

Definition with_lastTime (rm : RenderManager) (t : Q) : RenderManager := {|
  activeCameraId := activeCameraId rm;
  deadSimpleLight := deadSimpleLight rm;
  deadCubeLight := deadCubeLight rm;
  registeredLights := registeredLights rm;
  registeredModels := registeredModels rm;
  registeredCameras := registeredCameras rm;
  startTime := startTime rm;
  lastTime := t;
  attributeIds := attributeIds rm |}.

(** [renderModels], with [currentTime] the value of [glfwGetTime()].  The
    result is the calls issued and the manager afterwards; [None] when
    [registeredCameras[activeCameraId]] is a null shared_ptr (no such camera),
    whose dereference ends the process. *)
Definition renderModels (rm : RenderManager) (cat : Categorized) (currentTime : Q)
  : list glcall * option RenderManager :=
  let head := [SwitchToWindowViewport; SetClearColor 0 0 0 1; ClearScreen] in
  let deltaTime := currentTime - lastTime rm in
  let totalTime := currentTime - startTime rm in
  match StdMap.find (activeCameraId rm) (registeredCameras rm) with
  | None => (head, None)
  | Some cam =>
      (head ++ main_pass rm cat deltaTime totalTime (getViewMatrix cam)
                 (getProjectionMatrix cam) (-1) (StdMap.values (registeredModels rm)),
       Some (with_lastTime rm currentTime))
  end.

(** [render] (lines 451-455). *)
Definition render (rm : RenderManager) (currentTime : Q)
  : list glcall * option RenderManager :=
  let '(tr1, cat) := renderLights rm in
  let '(tr2, r) := renderModels rm cat currentTime in
  (tr1 ++ tr2, r).


(** *** Observations on a call sequence *)

(** The (texture unit, target, texture) triples bound by a call sequence:
    [glBindTexture] binds to the unit selected by the last [glActiveTexture]. *)
Fixpoint bindings (unit : Z) (tr : list glcall) : list (Z * target * Z) :=
  match tr with
  | [] => []
  | ActiveTexture u :: tr' => bindings u tr'
  | BindTexture tg tex :: tr' => (unit, tg, tex) :: bindings unit tr'
  | _ :: tr' => bindings unit tr'
  end.

Definition is_2d (tg : target) : bool :=
  match tg with GL_TEXTURE_2D => true | GL_TEXTURE_CUBE_MAP => false end.

(** 2D bindings outside unit 0 (unit 0 holds the diffuse texture): the
    simple-light shadow slots. *)
Definition simple_shadow_slots (tr : list glcall) : list (Z * target * Z) :=
  filter (fun '(u, tg, _) => is_2d tg && negb (Z.eqb u 0)) (bindings 0 tr).

(** Cube-map bindings: the cube-light shadow slots. *)
Definition cube_shadow_slots (tr : list glcall) : list (Z * target * Z) :=
  filter (fun '(_, tg, _) => negb (is_2d tg)) (bindings 0 tr).

Definition is_tex_op (c : glcall) : bool :=
  match c with ActiveTexture _ | BindTexture _ _ => true | _ => false end.

(** The value last uploaded to the uniform [name] of program [sid]. *)
Fixpoint uniform_value (sid : Z) (name : string) (tr : list glcall) : option uval :=
  match tr with
  | [] => None
  | Uniform sid' name' v :: tr' =>
      match uniform_value sid name tr' with
      | Some v' => Some v'
      | None => if Z.eqb sid sid' && String.eqb name name' then Some v else None
      end
  | _ :: tr' => uniform_value sid name tr'
  end.

(** The shadow blocks of a sequence of lights, the program cache starting at
    [shaderId]. *)
Fixpoint shadow_blocks (rm : RenderManager) (shaderId : Z) (ls : list LightBase)
  : list glcall :=
  match ls with
  | [] => []
  | l :: ls' => light_block rm shaderId l ++ shadow_blocks rm (getLightShaderId l) ls'
  end.

(** *** Camera registration (render.cpp lines 152-175) *)

Definition set_cameras (rm : RenderManager) (cams : StdMap.t CameraBase) (active : string)
  : RenderManager := {|
  activeCameraId := active;
  deadSimpleLight := deadSimpleLight rm;
  deadCubeLight := deadCubeLight rm;
  registeredLights := registeredLights rm;
  registeredModels := registeredModels rm;
  registeredCameras := cams;
  startTime := startTime rm;
  lastTime := lastTime rm;
  attributeIds := attributeIds rm |}.

(** [registerCamera] *)
Definition registerCamera (c : CameraBase) (rm : RenderManager) : RenderManager :=
  set_cameras rm (Registry.register getCameraId c (registeredCameras rm)) (activeCameraId rm).

(** [deregisterCamera(std::string)] *)
Definition deregisterCamera_id (cameraId : string) (rm : RenderManager) : RenderManager :=
  set_cameras rm (Registry.deregister_id cameraId (registeredCameras rm)) (activeCameraId rm).

(** [deregisterCamera(std::shared_ptr<CameraBase>)] *)
Definition deregisterCamera (c : CameraBase) (rm : RenderManager) : RenderManager :=
  deregisterCamera_id (getCameraId c) rm.

(** [registerActiveCamera(std::string)]: records the identifier only. *)
Definition registerActiveCamera_id (cameraId : string) (rm : RenderManager) : RenderManager :=
  set_cameras rm (registeredCameras rm) cameraId.

(** [registerActiveCamera(std::shared_ptr<CameraBase>)] *)
Definition registerActiveCamera (c : CameraBase) (rm : RenderManager) : RenderManager :=
  registerActiveCamera_id (getCameraId c) rm.

(** *** Further observations *)

(** The framebuffer each [glDrawArrays] renders into: the one bound by the
    last [glBindFramebuffer], [fb] at the start. *)
Fixpoint draw_targets (fb : Z) (tr : list glcall) : list Z :=
  match tr with
  | [] => []
  | BindFramebuffer f :: tr' => draw_targets f tr'
  | DrawArrays _ :: tr' => fb :: draw_targets fb tr'
  | _ :: tr' => draw_targets fb tr'
  end.

(** The framebuffer bound after a call sequence. *)
Fixpoint fb_after (fb : Z) (tr : list glcall) : Z :=
  match tr with
  | [] => fb
  | BindFramebuffer f :: tr' => fb_after f tr'
  | _ :: tr' => fb_after fb tr'
  end.

(** Whether every [glUniform*] of a call sequence addresses a location of
    the program in use ([glUseProgram] sets it; [cur] at the start, [None]
    when unknown). *)
Fixpoint uniforms_in_use (cur : option Z) (tr : list glcall) : bool :=
  match tr with
  | [] => true
  | UseProgram p :: tr' => uniforms_in_use (Some p) tr'
  | Uniform sid _ _ :: tr' =>
      match cur with
      | Some p => Z.eqb p sid && uniforms_in_use cur tr'
      | None => false
      end
  | _ :: tr' => uniforms_in_use cur tr'
  end.

(** The program in use after a call sequence. *)
Fixpoint program_after (cur : option Z) (tr : list glcall) : option Z :=
  match tr with
  | [] => cur
  | UseProgram p :: tr' => program_after (Some p) tr'
  | _ :: tr' => program_after cur tr'
  end.

(** The (program, value) uploads to the uniform [name], in order. *)
Fixpoint uploads (name : string) (tr : list glcall) : list (Z * uval) :=
  match tr with
  | [] => []
  | Uniform sid n v :: tr' =>
      if String.eqb n name then (sid, v) :: uploads name tr' else uploads name tr'
  | _ :: tr' => uploads name tr'
  end.

Definition is_simple (l : LightBase) : bool :=
  match getShadowBufferType (getShadowBufferDetails l) with SIMPLE => true | CUBE => false end.

End Render.
End Render.

(** ** ShotModel (src/models/shot_model.cpp)

    Models, lights and shot instances are heap objects shared through
    std::shared_ptr: the registries hold pointers, and [setModelPosition] /
    [setLightPosition] mutate the object every holder sees.  Objects are
    addressed by [ptr]. *)
Module Shot.

Definition ptr := nat.

Fixpoint heap_get {A} (p : ptr) (h : list (ptr * A)) : option A :=
  match h with
  | [] => None
  | (q, a) :: h' => if Nat.eqb p q then Some a else heap_get p h'
  end.

Fixpoint heap_set {A} (p : ptr) (a : A) (h : list (ptr * A)) : list (ptr * A) :=
  match h with
  | [] => []
  | (q, b) :: h' => if Nat.eqb p q then (q, a) :: h' else (q, b) :: heap_set p a h'
  end.

(** The ModelBase state the shot update reads or writes. *)
Record ModelState := {
  modelId : string;
  modelName : string;
  modelPosition : vec3;
  modelRotation : vec3;
  modelScale : vec3 }.

Definition setModelPosition (m : ModelState) (p : vec3) : ModelState := {|
  modelId := modelId m; modelName := modelName m; modelPosition := p;
  modelRotation := modelRotation m; modelScale := modelScale m |}.

Definition setModelScale (m : ModelState) (v : vec3) : ModelState := {|
  modelId := modelId m; modelName := modelName m; modelPosition := modelPosition m;
  modelRotation := modelRotation m; modelScale := v |}.

(** The PointLight state the shot update reads or writes. *)
Record LightState := { lightId : string; lightPosition : vec3 }.

Record World := {
  models : StdMap.t ptr;
  model_heap : list (ptr * ModelState);
  lights : StdMap.t ptr;
  light_heap : list (ptr * LightState);
  (** the address the next [PointLight::create] returns *)
  next_light : ptr;
  (** [static bool ShotModel::isShotLightPresent] *)
  isShotLightPresent : bool;
  (** [static double ShotModel::lastShotLightChange] *)
  lastShotLightChange : Q }.

(** The per-instance fields of a ShotModel; [self] is [this]. *)
Record ShotModel := {
  self : ptr;
  lastTime : Q;
  shotLight : option ptr }.

Definition set_models (w : World) (r : StdMap.t ptr) : World := {|
  models := r; model_heap := model_heap w; lights := lights w;
  light_heap := light_heap w; next_light := next_light w;
  isShotLightPresent := isShotLightPresent w;
  lastShotLightChange := lastShotLightChange w |}.

Definition set_model_heap (w : World) (h : list (ptr * ModelState)) : World := {|
  models := models w; model_heap := h; lights := lights w;
  light_heap := light_heap w; next_light := next_light w;
  isShotLightPresent := isShotLightPresent w;
  lastShotLightChange := lastShotLightChange w |}.

Definition set_lights (w : World) (r : StdMap.t ptr) (h : list (ptr * LightState))
    (n : ptr) : World := {|
  models := models w; model_heap := model_heap w; lights := r;
  light_heap := h; next_light := n;
  isShotLightPresent := isShotLightPresent w;
  lastShotLightChange := lastShotLightChange w |}.

Definition set_toggle (w : World) (b : bool) (t : Q) : World := {|
  models := models w; model_heap := model_heap w; lights := lights w;
  light_heap := light_heap w; next_light := next_light w;
  isShotLightPresent := b; lastShotLightChange := t |}.

Definition set_present (w : World) (b : bool) : World :=
  set_toggle w b (lastShotLightChange w).

(** Modelled from the spec: ModelManager (src/include/models.cpp, not in
    the sources), the model registry of spec section 4.3:
    [deregisterModel] removes by identifier and is a no-op when absent,
    [getAllModels] is the snapshot of the entries in identifier order. *)
Module ModelManager.
Definition registerModel (m : ModelState) (p : ptr) (w : World) : World :=
  set_models w (StdMap.insert_or_assign (modelId m) p (models w)).

Definition deregisterModel_id (id : string) (w : World) : World :=
  set_models w (StdMap.erase id (models w)).

Definition deregisterModel (m : ModelState) (w : World) : World :=
  deregisterModel_id (modelId m) w.

Definition getAllModels (w : World) : list ptr := StdMap.values (models w).
End ModelManager.

(** Modelled from the spec: LightManager (src/include/light.cpp, not in the
    sources), the light registry of spec sections 4.1-4.2: [registerLight]
    inserts or overwrites by identifier, [deregisterLight] removes by
    identifier and is a no-op when absent. *)
Module LightManager.
Definition registerLight (l : LightState) (p : ptr) (r : StdMap.t ptr) : StdMap.t ptr :=
  StdMap.insert_or_assign (lightId l) p r.

Definition deregisterLight (l : LightState) (r : StdMap.t ptr) : StdMap.t ptr :=
  StdMap.erase (lightId l) r.
End LightManager.

Definition Qltb (a b : Q) : bool := negb (Qle_bool b a).

Section Update.
(** [DeepCollisionValidator::haveShapesCollided(a->getColliderDetails()->
    getColliderShape(), b->..., true)], as a function of the two models. *)
Variable haveShapesCollided : ModelState -> ModelState -> bool.

(** [destroyShotLight] (lines 67-78) *)
Definition destroyShotLight (s : ShotModel) (w : World) : ShotModel * World :=
  let w1 :=
    match shotLight s with
    | Some lp =>
        match heap_get lp (light_heap w) with
        | Some lo =>
            set_lights w (LightManager.deregisterLight lo (lights w))
                       (light_heap w) (next_light w)
        | None => w
        end
    | None => w
    end in
  ({| self := self s; lastTime := lastTime s; shotLight := None |},
   set_present w1 false).

(** [createShotLight] (lines 48-62) *)
Definition createShotLight (s : ShotModel) (w : World) : ShotModel * World :=
  let '(s1, w1) := destroyShotLight s w in
  match heap_get (self s1) (model_heap w1) with
  | Some m =>
      let lp := next_light w1 in
      let lo := {| lightId := (modelId m ++ "::ShotLight")%string;
                   lightPosition := modelPosition m |} in
      let w2 := set_lights w1 (LightManager.registerLight lo lp (lights w1))
                           ((lp, lo) :: light_heap w1) (S lp) in
      ({| self := self s1; lastTime := lastTime s1; shotLight := Some lp |},
       set_present w2 true)
  | None => (s1, w1)
  end.

(** [shotLight->setLightPosition(getModelPosition())] *)
Definition move_shot_light (s : ShotModel) (w : World) : World :=
  match shotLight s, heap_get (self s) (model_heap w) with
  | Some lp, Some m =>
      match heap_get lp (light_heap w) with
      | Some lo =>
          set_lights w (lights w)
            (heap_set lp {| lightId := lightId lo; lightPosition := modelPosition m |}
                      (light_heap w))
            (next_light w)
      | None => w
      end
  | _, _ => w
  end.

(** [updateShotLight] (lines 83-103) *)
Definition updateShotLight (s : ShotModel) (w : World) : ShotModel * World :=
  if isShotLightPresent w then
    let '(s1, w1) :=
      match shotLight s with
      | None => createShotLight s w
      | Some _ => (s, w)
      end in
    (s1, move_shot_light s1 w1)
  else
    match shotLight s with
    | Some _ => destroyShotLight s w
    | None => (s, w)
    end.

(** [ShotModel::init] (lines 129-140) *)
Definition init (s : ShotModel) (w : World) : ShotModel * World :=
  let w1 :=
    match heap_get (self s) (model_heap w) with
    | Some m =>
        set_model_heap w
          (heap_set (self s) (setModelScale m (mkVec3 (1 # 2) (1 # 2) (1 # 2)))
                    (model_heap w))
    | None => w
    end in
  if isShotLightPresent w1 then createShotLight s w1 else (s, w1).

(** [ShotModel::deinit] (lines 142-151) *)
Definition deinit (s : ShotModel) (w : World) : ShotModel * World :=
  if isShotLightPresent w then
    let '(s1, w1) := destroyShotLight s w in
    (s1, set_present w1 true)
  else (s, w).

(** The collision loop of lines 185-201 over the snapshot [ms]. *)
Fixpoint collision_scan (me : ptr) (ms : list ptr) (w : World) : World :=
  match ms with
  | [] => w
  | p :: ms' =>
      match heap_get p (model_heap w), heap_get me (model_heap w) with
      | Some o, Some mine =>
          if String.eqb (modelName o) "Enemy" then
            if haveShapesCollided mine o then
              ModelManager.deregisterModel_id (modelId mine)
                (ModelManager.deregisterModel o w)
            else collision_scan me ms' w
          else collision_scan me ms' w
      | _, _ => collision_scan me ms' w
      end
  end.

(** [ShotModel::update] (lines 153-205); [currentTime] is [glfwGetTime()] and
    [keyH] is [controlManager.isKeyPressed(GLFW_KEY_H)]. *)
Definition update (currentTime : Q) (keyH : bool) (s : ShotModel) (w : World)
  : ShotModel * World :=
  let deltaTime := currentTime - lastTime s in
  match heap_get (self s) (model_heap w) with
  | None => (s, w)
  | Some m =>
      if Qltb (vz (modelPosition m)) (-50) then
        (s, ModelManager.deregisterModel_id (modelId m) w)
      else
        let w1 :=
          if keyH && Qltb (1 # 2) (currentTime - lastShotLightChange w)
          then set_toggle w (negb (isShotLightPresent w)) currentTime
          else w in
        let m1 := setModelPosition m
                    (vec3_sub (modelPosition m) (mkVec3 0 0 (100 * deltaTime))) in
        let w2 := set_model_heap w1 (heap_set (self s) m1 (model_heap w1)) in
        let '(s3, w3) := updateShotLight s w2 in
        let w4 := collision_scan (self s3) (ModelManager.getAllModels w3) w3 in
        ({| self := self s3; lastTime := currentTime; shotLight := shotLight s3 |}, w4)
  end.

End Update.

(** The identifier of the light a shot holds, read from the light object it
    points to. *)
Definition held_light_id (s : ShotModel) (w : World) : option string :=
  match shotLight s with
  | Some lp => option_map lightId (heap_get lp (light_heap w))
  | None => None
  end.

Definition is_held_id (o : option string) (k : string) : bool :=
  match o with Some i => String.eqb i k | None => false end.

End Shot.

(** ** Samples used by the concrete checks below *)

(** An entity with an identifier and a payload, standing for a registered
    light, model or camera. *)
Definition sample_entity : Type := (string * nat)%type.
Definition sample_id (e : sample_entity) : string := fst e.


(** A render manager over 1x1 "matrices" ([unit]), with a model, a camera,
    placeholder lights and the given registered lights. *)
Definition sample_sb (id tex : Z) (ty : Render.ShadowBufferType) : Render.ShadowBufferDetails :=
  {| Render.getShadowBufferId := id; Render.getShadowBufferTextureId := tex;
     Render.getShadowBufferType := ty |}.

Definition sample_light (id : string) (sb tex : Z) (ty : Render.ShadowBufferType)
  : Render.LightBase unit := {|
  Render.getLightId := id;
  Render.getLightPosition := mkVec3 0 0 0;
  Render.getLightColor := mkVec3 1 1 1;
  Render.getLightIntensity := 1;
  Render.getNearPlane := 1 # 10;
  Render.getFarPlane := 100;
  Render.getViewMatrices := match ty with Render.SIMPLE => [tt] | Render.CUBE => repeat tt 6 end;
  Render.getProjectionMatrices := match ty with Render.SIMPLE => [tt] | Render.CUBE => repeat tt 6 end;
  Render.getShadowBufferDetails := sample_sb sb tex ty;
  Render.getLightShaderId := 3 |}.

Definition sample_model : Render.ModelBase unit := {|
  Render.getModelId := "enemy0";
  Render.getModelShaderId := 5;
  Render.getModelTextureId := 40;
  Render.getObjectDetails := {| Render.getVertexBufferId := 1; Render.getUvBufferId := 2;
                                Render.getNormalBufferId := 3; Render.getBufferSize := 36 |};
  Render.getModelMatrix := tt |}.

Definition sample_rm (ls : list (Render.LightBase unit)) : Render.RenderManager unit := {|
  Render.activeCameraId := "main";
  Render.deadSimpleLight := sample_light "deadSimple" 90 91 Render.SIMPLE;
  Render.deadCubeLight := sample_light "deadCube" 92 93 Render.CUBE;
  Render.registeredLights :=
    fold_left (fun r l => Registry.register (@Render.getLightId unit) l r) ls StdMap.empty;
  Render.registeredModels :=
    Registry.register (@Render.getModelId unit) sample_model StdMap.empty;
  Render.registeredCameras :=
    Registry.register (@Render.getCameraId unit)
      {| Render.getCameraId := "main"; Render.getViewMatrix := tt;
         Render.getProjectionMatrix := tt |} StdMap.empty;
  Render.startTime := 0;
  Render.lastTime := 0;
  Render.attributeIds := [] |}.

Definition unit_mul (_ _ : unit) : unit := tt.

(** The lights of render.cpp's [renderLights] output for a manager holding
    the lights [ls]. *)
Definition sample_categorized (ls : list (Render.LightBase unit)) : Render.Categorized unit :=
  snd (Render.renderLights unit unit_mul tt (sample_rm ls)).

(** One model draw of the main pass for a manager holding the lights [ls]. *)
Definition sample_model_calls (ls : list (Render.LightBase unit)) : list (Render.glcall unit) :=
  Render.model_calls unit unit_mul tt (sample_rm ls) (sample_categorized ls) 0 0 tt tt sample_model.

(** Shot-update samples: a world whose model registry holds the given
    heap objects, and a shot instance at address 0 with no light yet. *)
Definition sample_model_state (id name : string) (z : Q) : Shot.ModelState := {|
  Shot.modelId := id; Shot.modelName := name;
  Shot.modelPosition := mkVec3 0 0 z;
  Shot.modelRotation := mkVec3 0 0 0;
  Shot.modelScale := mkVec3 (1 # 2) (1 # 2) (1 # 2) |}.

Definition sample_world (objs : list (Shot.ptr * Shot.ModelState)) (present : bool)
    (last : Q) : Shot.World :=
  fold_left (fun w '(p, o) => Shot.ModelManager.registerModel o p w) objs {|
    Shot.models := StdMap.empty; Shot.model_heap := objs;
    Shot.lights := StdMap.empty; Shot.light_heap := []; Shot.next_light := 100%nat;
    Shot.isShotLightPresent := present; Shot.lastShotLightChange := last |}.

Definition sample_shot : Shot.ShotModel :=
  {| Shot.self := 0%nat; Shot.lastTime := 0; Shot.shotLight := None |}.

(** Collision test under which only the model "enemyA" overlaps the shot. *)
Definition sample_collide (a b : Shot.ModelState) : bool :=
  String.eqb (Shot.modelId b) "enemyA".

(** A shot just inside the boundary, at z = -49.9. *)
Definition sample_world_edge : Shot.World :=
  sample_world [(0%nat, sample_model_state "shot0" "Shot" (-499 # 10))] true (-1).

(** A shot at z = -51, beyond the boundary, next to an enemy. *)
Definition sample_world_out : Shot.World :=
  sample_world [(0%nat, sample_model_state "shot0" "Shot" (-51));
                (1%nat, sample_model_state "enemyA" "Enemy" (-51))] true (-1).

(** A shot at z = 0 and two enemies, of which only "enemyA" collides. *)
Definition sample_world_enemies : Shot.World :=
  sample_world [(0%nat, sample_model_state "shot0" "Shot" 0);
                (1%nat, sample_model_state "enemyA" "Enemy" 0);
                (2%nat, sample_model_state "enemyB" "Enemy" 0)] true (-1).

(** * Properties *)

(** ** std::map *)
Module StdMapFacts.

Lemma find_insert_sorted_fresh {V} (k k' : string) (v : V) (m : StdMap.t V) :
  StdMap.find k' m = None ->
  StdMap.find k (StdMap.insert_sorted k' v m) =
  if String.eqb k k' then Some v else StdMap.find k m.
Proof.
  induction m as [|[k1 v1] m IH]; simpl; intros Hf.
  - reflexivity.
  - destruct (String.ltb k' k1) eqn:Hlt; simpl.
    + reflexivity.
    + destruct (String.eqb k' k1) eqn:E'; [discriminate|].
      destruct (String.eqb k k1) eqn:E.
      * apply String.eqb_eq in E; subst k1.
        destruct (String.eqb k k') eqn:E2; [|reflexivity].
        apply String.eqb_eq in E2; subst k'. rewrite String.eqb_refl in E'. discriminate.
      * apply IH. exact Hf.
Qed.

Lemma find_insert {V} (k k' : string) (v : V) (m : StdMap.t V) :
  StdMap.find k (StdMap.insert k' v m) =
  if String.eqb k k' then
    Some (match StdMap.find k' m with Some v0 => v0 | None => v end)
  else StdMap.find k m.
Proof.
  unfold StdMap.insert.
  destruct (StdMap.find k' m) as [v0|] eqn:Hf.
  - destruct (String.eqb k k') eqn:E; [|reflexivity].
    apply String.eqb_eq in E; subst k'. exact Hf.
  - apply find_insert_sorted_fresh. exact Hf.
Qed.

Lemma find_erase {V} (k k' : string) (m : StdMap.t V) :
  StdMap.find k (StdMap.erase k' m) =
  if String.eqb k k' then None else StdMap.find k m.
Proof.
  induction m as [|[k1 v1] m IH]; simpl.
  - destruct (String.eqb k k'); reflexivity.
  - destruct (String.eqb k' k1) eqn:E1.
    + apply String.eqb_eq in E1; subst k1. rewrite IH.
      destruct (String.eqb k k'); reflexivity.
    + simpl. destruct (String.eqb k k1) eqn:E2.
      * apply String.eqb_eq in E2; subst k1.
        destruct (String.eqb k k') eqn:E3; [|reflexivity].
        apply String.eqb_eq in E3; subst k'. rewrite String.eqb_refl in E1. discriminate.
      * exact IH.
Qed.

Lemma erase_absent {V} (k : string) (m : StdMap.t V) :
  StdMap.find k m = None -> StdMap.erase k m = m.
Proof.
  induction m as [|[k1 v1] m IH]; simpl; intros Hf; [reflexivity|].
  destruct (String.eqb k k1) eqn:E; [discriminate|].
  f_equal. exact (IH Hf).
Qed.

Lemma erase_erase {V} (k : string) (m : StdMap.t V) :
  StdMap.erase k (StdMap.erase k m) = StdMap.erase k m.
Proof.
  apply erase_absent. rewrite find_erase, String.eqb_refl. reflexivity.
Qed.

End StdMapFacts.

(** ** Registries of RenderManager *)
Module RegistryProps.

(** Concrete: registering a second entity under an identifier that is
    already present keeps the first one. *)
Example register_keeps_first :
  StdMap.find "a"
    (Registry.register sample_id ("a", 2%nat)
       (Registry.register sample_id ("a", 1%nat) StdMap.empty))
  = Some ("a", 1%nat).
Proof. reflexivity. Qed.

(** Claim C1 (counterexample): registering an entity whose identifier is
    already registered does not replace the prior entry: a lookup afterwards
    still returns the first entity, not the newly registered one. *)
Lemma C1_register_not_last_write_wins :
  StdMap.find "a"
    (Registry.register sample_id ("a", 2%nat)
       (Registry.register sample_id ("a", 1%nat) StdMap.empty))
  <> Some ("a", 2%nat).
Proof. vm_compute. congruence. Qed.

(** Claim C1 (amended): in every registry (lights, models, cameras),
    [register x] silently keeps the entry already stored under [x]'s
    identifier if there is one (first write wins) and stores [x] otherwise;
    no other identifier's entry changes. *)
Theorem C1_register_first_write_wins {E} (getId : E -> string) (x : E)
    (r : StdMap.t E) (k : string) :
  StdMap.find k (Registry.register getId x r) =
  if String.eqb k (getId x) then
    Some (match StdMap.find (getId x) r with Some v => v | None => x end)
  else StdMap.find k r.
Proof. unfold Registry.register. apply StdMapFacts.find_insert. Qed.

(** Claim C8: in every registry, deregistering an identifier that is not
    present leaves the registry unchanged (no error: the operation is
    total), and deregistering the same identifier twice is the same as
    deregistering it once; the same holds for deregistration by entity. *)
Theorem C8_deregister_absent_noop_idempotent {E} (getId : E -> string)
    (id : string) (x : E) (r : StdMap.t E) :
  StdMap.find id r = None ->
  Registry.deregister_id id r = r /\
  Registry.deregister_id id (Registry.deregister_id id r) = Registry.deregister_id id r /\
  Registry.deregister getId x (Registry.deregister getId x r) = Registry.deregister getId x r.
Proof.
  intros Hf. unfold Registry.deregister_id, Registry.deregister.
  split; [apply StdMapFacts.erase_absent; exact Hf|].
  split; apply StdMapFacts.erase_erase.
Qed.

Lemma C8_witness :
  StdMap.find "b" (Registry.register sample_id ("a", 1%nat) StdMap.empty) = None /\
  (Registry.deregister_id "b" (Registry.register sample_id ("a", 1%nat) StdMap.empty)
     = Registry.register sample_id ("a", 1%nat) StdMap.empty /\ True).
Proof.
  split; [reflexivity|].
  destruct (C8_deregister_absent_noop_idempotent sample_id "b" ("a", 1%nat)
              (Registry.register sample_id ("a", 1%nat) StdMap.empty) eq_refl)
    as [H1 _].
  split; [exact H1 | exact I].
Defined.

End RegistryProps.

(** ** RenderManager passes *)
Module RenderProps.
Import Render.

Section RenderProps.
Variable M : Type.
Variable mmul : M -> M -> M.
Variable mat4_default : M.

Lemma bindings_app_indep (a b : list (glcall M)) (u : Z) :
  (forall u1 u2, bindings M u1 b = bindings M u2 b) ->
  bindings M u (a ++ b) = bindings M u a ++ bindings M u b.
Proof.
  intros Hb. revert u.
  induction a as [|c a IH]; intros u; simpl; [reflexivity|].
  destruct c; try apply IH.
  - rewrite IH. rewrite (Hb unit u). reflexivity.
  - rewrite IH. reflexivity.
Qed.

Lemma bindings_no_tex (a : list (glcall M)) (u : Z) :
  forallb (fun c => negb (is_tex_op M c)) a = true -> bindings M u a = [].
Proof.
  induction a as [|c a IH]; simpl; [reflexivity|].
  intros H. apply andb_prop in H as [Hc Ha].
  destruct c; simpl in Hc; try discriminate; apply IH; exact Ha.
Qed.

Lemma draw_with_arrays_no_tex (used : list Z) (arrays : list (Z * Z)) (count : Z) :
  forallb (fun c => negb (is_tex_op M c)) (draw_with_arrays M used arrays count) = true.
Proof.
  unfold draw_with_arrays.
  rewrite !forallb_app.
  repeat (apply andb_true_intro; split);
    try reflexivity;
    apply forallb_forall; intros c Hc; apply in_map_iff in Hc as [[[id buf] sz] [<- _]];
    reflexivity.
Qed.

Lemma bindings_indexed (f : nat -> LightDetails M -> list (glcall M)) (k : Z) (tg : target) :
  (forall u i ld, bindings M u (f i ld) = [(Z.of_nat i + k, tg, textureId M ld)]%Z) ->
  forall l i u,
  bindings M u (indexed_calls M f i l) =
  map (fun j => (Z.of_nat j + k, tg, nth (j - i) (map (textureId M) l) 0))%Z
      (seq i (length l)).
Proof.
  intros Hf l. induction l as [|ld l IH]; intros i u; simpl; [reflexivity|].
  rewrite bindings_app_indep.
  - rewrite Hf, IH. simpl. rewrite Nat.sub_diag. f_equal.
    apply map_ext_in. intros j Hj. apply in_seq in Hj.
    replace (j - i)%nat with (S (j - S i)) by lia. reflexivity.
  - intros u1 u2. rewrite !IH. reflexivity.
Qed.

Lemma bindings_flat_map_seq (g : nat -> list (glcall M)) (k : Z) (tg : target) (tex : Z) :
  (forall u i, bindings M u (g i) = [(Z.of_nat i + k, tg, tex)]%Z) ->
  forall c n u,
  bindings M u (flat_map g (seq n c)) =
  map (fun j => (Z.of_nat j + k, tg, tex))%Z (seq n c).
Proof.
  intros Hg c. induction c as [|c IH]; intros n u; simpl; [reflexivity|].
  rewrite bindings_app_indep.
  - rewrite Hg, IH. reflexivity.
  - intros u1 u2. rewrite !IH. reflexivity.
Qed.

Lemma filter_all {A} (p : A -> bool) (l : list A) :
  (forall x, In x l -> p x = true) -> filter p l = l.
Proof.
  induction l as [|x l IH]; simpl; intros H; [reflexivity|].
  rewrite (H x (or_introl eq_refl)). f_equal. apply IH. intros y Hy. apply H. right. exact Hy.
Qed.

Lemma filter_none {A} (p : A -> bool) (l : list A) :
  (forall x, In x l -> p x = false) -> filter p l = [].
Proof.
  induction l as [|x l IH]; simpl; intros H; [reflexivity|].
  rewrite (H x (or_introl eq_refl)). apply IH. intros y Hy. apply H. right. exact Hy.
Qed.

(** The texture bindings of one main-pass model draw, in order. *)
Lemma bindings_model_calls (rm : RenderManager M) (cat : Categorized M) (dt tt : Q)
    (v p : M) (m : ModelBase M) :
  let simple := cat_simple M cat in
  let cube := cat_cube M cat in
  bindings M 0 (model_calls M mmul mat4_default rm cat dt tt v p m) =
  [(0%Z, GL_TEXTURE_2D, getModelTextureId M m)]
  ++ map (fun j => (Z.of_nat j + 1, GL_TEXTURE_2D, nth (j - 0) (map (textureId M) simple) 0))%Z
         (seq 0 (length simple))
  ++ map (fun j => (Z.of_nat j + 1, GL_TEXTURE_2D,
                    getShadowBufferTextureId (getShadowBufferDetails M (deadSimpleLight M rm))))%Z
         (seq (length simple) (7 - length simple))
  ++ map (fun j => (Z.of_nat j + 8, GL_TEXTURE_CUBE_MAP, nth (j - 0) (map (textureId M) cube) 0))%Z
         (seq 0 (length cube))
  ++ map (fun j => (Z.of_nat j + 8, GL_TEXTURE_CUBE_MAP,
                    getShadowBufferTextureId (getShadowBufferDetails M (deadCubeLight M rm))))%Z
         (seq (length cube) (8 - length cube)).
Proof.
  intros simple cube.
  assert (Hs : forall u i ld, bindings M u (simple_light_calls M (getModelShaderId M m) i ld)
                 = [(Z.of_nat i + 1, GL_TEXTURE_2D, textureId M ld)]%Z)
    by reflexivity.
  assert (Hc : forall n u i ld, bindings M u (cube_light_calls M (getModelShaderId M m) n i ld)
                 = [(Z.of_nat i + 8, GL_TEXTURE_CUBE_MAP, textureId M ld)]%Z)
    by reflexivity.
  assert (Hd : forall tex u i, bindings M u (simple_dead_calls M (getModelShaderId M m) tex i)
                 = [(Z.of_nat i + 1, GL_TEXTURE_2D, tex)]%Z)
    by reflexivity.
  assert (Hdc : forall n tex u i,
             bindings M u (cube_dead_calls M (getModelShaderId M m) n tex i)
             = [(Z.of_nat i + 8, GL_TEXTURE_CUBE_MAP, tex)]%Z)
    by reflexivity.
  unfold model_calls, texture_calls. cbv zeta.
  set (D := draw_with_arrays M _ _ _).
  set (Is := indexed_calls M (simple_light_calls M (getModelShaderId M m)) 0 simple).
  set (Fs := flat_map (simple_dead_calls M (getModelShaderId M m)
               (getShadowBufferTextureId (getShadowBufferDetails M (deadSimpleLight M rm))))
               (seq (length simple) (7 - length simple))).
  set (Ic := indexed_calls M (cube_light_calls M (getModelShaderId M m) (length simple)) 0 cube).
  set (Fc := flat_map (cube_dead_calls M (getModelShaderId M m) (length simple)
               (getShadowBufferTextureId (getShadowBufferDetails M (deadCubeLight M rm))))
               (seq (length cube) (8 - length cube))).
  assert (HD : forall u, bindings M u D = [])
    by (intros u; apply bindings_no_tex, draw_with_arrays_no_tex).
  assert (H4 : forall u, bindings M u (Fc ++ D) =
            map (fun j => (Z.of_nat j + 8, GL_TEXTURE_CUBE_MAP,
                           getShadowBufferTextureId (getShadowBufferDetails M (deadCubeLight M rm))))%Z
                (seq (length cube) (8 - length cube))).
  { intros u. unfold Is, Fs, Ic, Fc in *. rewrite bindings_app_indep by (intros; rewrite !HD; reflexivity).
    rewrite HD, app_nil_r. apply (bindings_flat_map_seq _ _ _ _ (Hdc _ _)). }
  assert (H3 : forall u, bindings M u (Ic ++ Fc ++ D) =
            map (fun j => (Z.of_nat j + 8, GL_TEXTURE_CUBE_MAP, nth (j - 0) (map (textureId M) cube) 0))%Z
                (seq 0 (length cube)) ++ bindings M 0 (Fc ++ D)).
  { intros u. unfold Is, Fs, Ic, Fc in *. rewrite bindings_app_indep by (intros; rewrite !H4; reflexivity).
    rewrite (bindings_indexed _ _ _ (Hc _)), !H4. reflexivity. }
  assert (H2 : forall u, bindings M u (Fs ++ Ic ++ Fc ++ D) =
            map (fun j => (Z.of_nat j + 1, GL_TEXTURE_2D,
                           getShadowBufferTextureId (getShadowBufferDetails M (deadSimpleLight M rm))))%Z
                (seq (length simple) (7 - length simple)) ++ bindings M 0 (Ic ++ Fc ++ D)).
  { intros u. unfold Is, Fs, Ic, Fc in *. rewrite bindings_app_indep by (intros; rewrite !H3; reflexivity).
    rewrite (bindings_flat_map_seq _ _ _ _ (Hd _)), !H3. reflexivity. }
  assert (H1 : forall u, bindings M u (Is ++ Fs ++ Ic ++ Fc ++ D) =
            map (fun j => (Z.of_nat j + 1, GL_TEXTURE_2D, nth (j - 0) (map (textureId M) simple) 0))%Z
                (seq 0 (length simple)) ++ bindings M 0 (Fs ++ Ic ++ Fc ++ D)).
  { intros u. unfold Is, Fs, Ic, Fc in *. rewrite bindings_app_indep by (intros; rewrite !H2; reflexivity).
    rewrite (bindings_indexed _ _ _ Hs), !H2. reflexivity. }
  rewrite <- !app_assoc. cbn [app bindings].
  rewrite H1, H2, H3, H4. reflexivity.
Qed.


Lemma slots_merge (k : Z) (tg : target) (texs : list Z) (dead : Z) (c : nat) :
  (length texs <= c)%nat ->
  map (fun j => (Z.of_nat j + k, tg, nth (j - 0) texs 0))%Z (seq 0 (length texs))
  ++ map (fun j => (Z.of_nat j + k, tg, dead))%Z (seq (length texs) (c - length texs))
  = map (fun j => (Z.of_nat j + k, tg, nth j texs dead))%Z (seq 0 c).
Proof.
  intros Hc.
  replace (seq 0 c) with (seq 0 (length texs) ++ seq (length texs) (c - length texs)).
  2:{ rewrite <- seq_app. f_equal. lia. }
  rewrite map_app. f_equal; apply map_ext_in; intros j Hj; apply in_seq in Hj.
  - rewrite Nat.sub_0_r. f_equal. apply nth_indep. lia.
  - f_equal. symmetry. apply nth_overflow. lia.
Qed.

Lemma shadow_pass_trace (rm : RenderManager M) (ls : list (LightBase M)) :
  forall sid cat,
  fst (shadow_pass M mmul mat4_default rm sid ls cat) =
  shadow_blocks M mmul mat4_default rm sid ls.
Proof.
  induction ls as [|l ls IH]; intros sid cat; simpl; [reflexivity|].
  specialize (IH (getLightShaderId M l)
                 (cat_push M cat (getShadowBufferType (getShadowBufferDetails M l))
                    (light_details M mmul mat4_default l))).
  destruct (shadow_pass M mmul mat4_default rm _ ls _) as [tr c]. simpl in *.
  subst tr. unfold light_block. rewrite <- !app_assoc. reflexivity.
Qed.

(** Any property of the LightDetails of each iterated light holds of every
    record the shadow pass collects. *)
Lemma shadow_pass_records (rm : RenderManager M) (P : LightDetails M -> Prop)
    (ls : list (LightBase M)) :
  (forall l, In l ls -> P (light_details M mmul mat4_default l)) ->
  forall sid cat,
  Forall P (cat_simple M cat) -> Forall P (cat_cube M cat) ->
  let c := snd (shadow_pass M mmul mat4_default rm sid ls cat) in
  Forall P (cat_simple M c) /\ Forall P (cat_cube M c).
Proof.
  induction ls as [|l ls IH]; intros Hls sid cat Hs Hc; simpl; [split; assumption|].
  set (cat' := cat_push M cat _ _).
  assert (H' : Forall P (cat_simple M cat') /\ Forall P (cat_cube M cat')).
  { assert (Hl : P (light_details M mmul mat4_default l)) by (apply Hls; left; reflexivity).
    unfold cat', cat_push.
    destruct (getShadowBufferType (getShadowBufferDetails M l)); simpl;
      (split; [try apply Forall_app; try split|try apply Forall_app; try split]);
      auto. }
  destruct H' as [Hs' Hc'].
  assert (IH' := IH (fun l' Hl' => Hls l' (or_intror Hl')) (getLightShaderId M l) cat' Hs' Hc').
  destruct (shadow_pass M mmul mat4_default rm _ ls cat') as [tr c]. exact IH'.
Qed.

Lemma forallb_flat_map {A B} (q : B -> bool) (f : A -> list B) (l : list A) :
  (forall x, In x l -> forallb q (f x) = true) -> forallb q (flat_map f l) = true.
Proof.
  induction l as [|x l IH]; simpl; intros H; [reflexivity|].
  rewrite forallb_app, H, IH; auto.
Qed.

Lemma shadow_blocks_no_tex (rm : RenderManager M) (ls : list (LightBase M)) :
  forall sid,
  forallb (fun c => negb (is_tex_op M c)) (shadow_blocks M mmul mat4_default rm sid ls) = true.
Proof.
  induction ls as [|l ls IH]; intros sid; simpl; [reflexivity|].
  rewrite forallb_app, IH, andb_true_r.
  unfold light_block. rewrite !forallb_app.
  repeat (apply andb_true_intro; split); try reflexivity;
    [destruct (Z.eqb sid _); reflexivity|].
  apply forallb_flat_map. intros m _.
  unfold shadow_model_calls. rewrite !forallb_app.
  rewrite draw_with_arrays_no_tex, andb_true_r.
  rewrite forallb_flat_map by (intros; reflexivity).
  reflexivity.
Qed.

Lemma renderLights_split (rm : RenderManager M) :
  renderLights M mmul mat4_default rm =
  ([SwitchToFrameBufferViewport M; SetClearColor M 1 1 1 1]
     ++ fst (shadow_pass M mmul mat4_default rm (-1)
               (StdMap.values (registeredLights M rm)) (empty_categorized M)),
   snd (shadow_pass M mmul mat4_default rm (-1)
          (StdMap.values (registeredLights M rm)) (empty_categorized M))).
Proof.
  unfold renderLights. destruct (shadow_pass _ _ _ _ _ _ _). reflexivity.
Qed.

(** Claim C3 (amended): every model draw of the main pass binds exactly 7
    2D shadow-texture slots, on texture units 1..7, and exactly 8 cube-map
    shadow-texture slots, on texture units 8..15 (counts hard-coded in
    renderModels, not MAX_CONE_LIGHTS or MAX_POINT_LIGHTS); slot i holds the
    i-th collected light's shadow texture and every unused slot the SIMPLE
    (resp. CUBE) placeholder's, whenever at most 7 simple and 8 cube lights
    were collected. *)
Theorem C3_main_pass_binds_fixed_slot_counts (rm : RenderManager M) (cat : Categorized M)
    (dt tt : Q) (v p : M) (m : ModelBase M) :
  (length (cat_simple M cat) <= 7)%nat ->
  (length (cat_cube M cat) <= 8)%nat ->
  let tr := model_calls M mmul mat4_default rm cat dt tt v p m in
  simple_shadow_slots M tr =
    map (fun i => (Z.of_nat i + 1, GL_TEXTURE_2D,
                   nth i (map (textureId M) (cat_simple M cat))
                     (getShadowBufferTextureId (getShadowBufferDetails M (deadSimpleLight M rm)))))%Z
        (seq 0 7) /\
  cube_shadow_slots M tr =
    map (fun i => (Z.of_nat i + 8, GL_TEXTURE_CUBE_MAP,
                   nth i (map (textureId M) (cat_cube M cat))
                     (getShadowBufferTextureId (getShadowBufferDetails M (deadCubeLight M rm)))))%Z
        (seq 0 8).
Proof.
  intros Hs Hc tr. unfold tr, simple_shadow_slots, cube_shadow_slots.
  rewrite bindings_model_calls. rewrite !filter_app.
  cbn [filter is_2d negb Z.eqb andb].
  split.
  - rewrite (filter_none _ (map _ (seq 0 (length (cat_cube M cat))))),
            (filter_none _ (map _ (seq (length (cat_cube M cat)) _))).
    2,3: intros x Hx; apply in_map_iff in Hx as [j [<- _]]; reflexivity.
    rewrite !filter_all.
    2,3: intros x Hx; apply in_map_iff in Hx as [j [<- _]]; simpl;
         destruct (Z.of_nat j + 1)%Z eqn:E; [lia|reflexivity|lia].
    rewrite !app_nil_r.
    rewrite <- (length_map (textureId M) (cat_simple M cat)).
    apply slots_merge. rewrite length_map. exact Hs.
  - rewrite (filter_none _ (map _ (seq 0 (length (cat_simple M cat))))),
            (filter_none _ (map _ (seq (length (cat_simple M cat)) _))).
    2,3: intros x Hx; apply in_map_iff in Hx as [j [<- _]]; reflexivity.
    rewrite !filter_all.
    2,3: intros x Hx; apply in_map_iff in Hx as [j [<- _]]; reflexivity.
    cbn [app].
    rewrite <- (length_map (textureId M) (cat_cube M cat)).
    apply slots_merge. rewrite length_map. exact Hc.
Qed.

(** Claim C4 (code_bug): every light-details record collected by
    renderLights is the record of a registered light, with the light-view
    matrix projection[0] * view[0] * glm::mat4() and map width
    FRAMEBUFFER_WIDTH; but its map height is also FRAMEBUFFER_WIDTH (1600),
    not the shadow buffer's FRAMEBUFFER_HEIGHT (1200). *)
Theorem C4_light_details_map_height_is_width (rm : RenderManager M) :
  let c := snd (renderLights M mmul mat4_default rm) in
  Forall (fun ld =>
    exists l, In l (StdMap.values (registeredLights M rm)) /\
      lightVpMatrix M ld =
        mmul (mmul (at_ M mat4_default (getProjectionMatrices M l) 0)
                   (at_ M mat4_default (getViewMatrices M l) 0)) mat4_default /\
      mapWidth M ld = FRAMEBUFFER_WIDTH /\
      mapHeight M ld = FRAMEBUFFER_WIDTH)
    (cat_simple M c ++ cat_cube M c) /\
  FRAMEBUFFER_WIDTH = 1600%Z /\ FRAMEBUFFER_HEIGHT = 1200%Z.
Proof.
  intros c. split; [|split; reflexivity].
  unfold c. rewrite renderLights_split. simpl snd.
  apply Forall_app.
  apply shadow_pass_records; [|constructor|constructor].
  intros l Hl. exists l. repeat split; assumption || reflexivity.
Qed.

(** Claim C5: the calls of [render] are all the calls of the shadow pass
    followed by those of the main pass: the shadow pass consists of one
    complete block per registered light, in map order, and binds no texture,
    and the main pass starts only after it, with the switch to the window
    viewport. *)
Theorem C5_shadow_pass_completes_before_main_pass (rm : RenderManager M) (t : Q) :
  let shadow := fst (renderLights M mmul mat4_default rm) in
  let main := fst (renderModels M mmul mat4_default rm
                     (snd (renderLights M mmul mat4_default rm)) t) in
  fst (render M mmul mat4_default rm t) = shadow ++ main /\
  shadow = [SwitchToFrameBufferViewport M; SetClearColor M 1 1 1 1]
             ++ shadow_blocks M mmul mat4_default rm (-1)
                  (StdMap.values (registeredLights M rm)) /\
  forallb (fun c => negb (is_tex_op M c)) shadow = true /\
  exists rest, main = SwitchToWindowViewport M :: rest.
Proof.
  intros shadow main.
  assert (Hsh : shadow = [SwitchToFrameBufferViewport M; SetClearColor M 1 1 1 1]
             ++ shadow_blocks M mmul mat4_default rm (-1)
                  (StdMap.values (registeredLights M rm))).
  { unfold shadow. rewrite renderLights_split. simpl fst. rewrite shadow_pass_trace.
    reflexivity. }
  split; [|split; [exact Hsh|split]].
  - unfold render, shadow, main.
    destruct (renderLights M mmul mat4_default rm) as [tr1 cat]. cbn [fst snd].
    destruct (renderModels M mmul mat4_default rm cat t) as [tr2 r]. reflexivity.
  - rewrite Hsh, forallb_app, shadow_blocks_no_tex. reflexivity.
  - unfold main, renderModels.
    destruct (StdMap.find _ _); eexists; reflexivity.
Qed.

End RenderProps.

(** C3 at one simple and one cube light. *)
Lemma C3_witness :
  let ls := [sample_light "l1" 10 11 SIMPLE; sample_light "l2" 12 13 CUBE] in
  let cat := sample_categorized ls in
  (length (cat_simple unit cat) <= 7)%nat /\ (length (cat_cube unit cat) <= 8)%nat /\
  simple_shadow_slots unit (sample_model_calls ls) =
    map (fun i => (Z.of_nat i + 1, GL_TEXTURE_2D,
                   nth i (map (textureId unit) (cat_simple unit cat)) 91))%Z (seq 0 7).
Proof.
  intros ls cat.
  assert (H1 : (length (cat_simple unit cat) <= 7)%nat) by (vm_compute; lia).
  assert (H2 : (length (cat_cube unit cat) <= 8)%nat) by (vm_compute; lia).
  split; [exact H1|split; [exact H2|]].
  exact (proj1 (C3_main_pass_binds_fixed_slot_counts unit unit_mul tt (sample_rm ls) cat
                  0 0 tt tt sample_model H1 H2)).
Defined.

(** Claim C3 (counterexample): with no light registered, a main-pass model
    draw binds 7 2D shadow slots and 8 cube-map shadow slots, not
    MAX_CONE_LIGHTS (4) and MAX_POINT_LIGHTS (6). *)
Lemma C3_slot_counts_not_configured_maxima :
  Z.of_nat (length (simple_shadow_slots unit (sample_model_calls []))) = 7%Z /\
  Z.of_nat (length (cube_shadow_slots unit (sample_model_calls []))) = 8%Z /\
  Z.of_nat (length (simple_shadow_slots unit (sample_model_calls []))) <> MAX_CONE_LIGHTS /\
  Z.of_nat (length (cube_shadow_slots unit (sample_model_calls []))) <> MAX_POINT_LIGHTS.
Proof. vm_compute. repeat split; discriminate. Qed.

(** Claim C10 (code_bug): with one simple light and no cube light
    registered, cube slot 0 is bound on texture unit 8 (the CUBE
    placeholder's texture), but the sampler uniform cubeLightTextures[0]
    receives 9 = simpleCount + 0 + 8, a unit that holds a different binding. *)
Theorem C10_cube_sampler_off_by_simple_count :
  let tr := sample_model_calls [sample_light "l1" 10 11 SIMPLE] in
  uniform_value unit 5 "cubeLightTextures[0]" tr = Some (UInt unit 9) /\
  In (8%Z, GL_TEXTURE_CUBE_MAP, 93%Z) (cube_shadow_slots unit tr) /\
  In (9%Z, GL_TEXTURE_CUBE_MAP, 93%Z) (cube_shadow_slots unit tr) /\
  (forall tg tex, In (9%Z, tg, tex) (bindings unit 0 tr) -> tg = GL_TEXTURE_CUBE_MAP).
Proof.
  vm_compute. split; [reflexivity|]. split; [left; reflexivity|].
  split; [right; left; reflexivity|].
  intros tg tex H. repeat (destruct H as [H|H]; [inversion H; reflexivity|]). destruct H.
Qed.

End RenderProps.

(** ** ShotModel::update *)
Module ShotProps.
Import Shot.

Lemma heap_get_set_same {A} (p : ptr) (a b : A) (h : list (ptr * A)) :
  heap_get p h = Some a -> heap_get p (heap_set p b h) = Some b.
Proof.
  induction h as [|[q c] h IH]; simpl; [discriminate|].
  destruct (Nat.eqb p q) eqn:E; simpl; rewrite E; [reflexivity|exact IH].
Qed.

Lemma Qltb_true (a b : Q) : (a < b)%Q -> Qltb a b = true.
Proof.
  intros H. unfold Qltb. destruct (Qle_bool b a) eqn:E; [|reflexivity].
  apply Qle_bool_iff in E. exfalso. apply (Qlt_not_le a b H E).
Qed.

Lemma Qltb_false (a b : Q) : ~ (a < b)%Q -> Qltb a b = false.
Proof.
  intros H. unfold Qltb. destruct (Qle_bool b a) eqn:E; [reflexivity|].
  exfalso. apply H. apply Qnot_le_lt. intros Hle. apply Qle_bool_iff in Hle. congruence.
Qed.

(** Case analysis on the heap lookups of the light bookkeeping. *)
Ltac world_cases :=
  repeat (cbn; match goal with
          | |- context [heap_get ?p ?h] => destruct (heap_get p h)
          | |- context [shotLight ?s] => destruct (shotLight s)
          | |- context [Nat.eqb ?n ?n] => rewrite Nat.eqb_refl
          end);
  cbn; auto.

Section Facts.
Variable hc : ModelState -> ModelState -> bool.

(** What [updateShotLight] leaves alone. *)
Lemma updateShotLight_frame (s : ShotModel) (w : World) :
  let '(s', w') := updateShotLight s w in
  self s' = self s /\ models w' = models w /\ model_heap w' = model_heap w /\
  lastShotLightChange w' = lastShotLightChange w.
Proof.
  unfold updateShotLight, createShotLight, destroyShotLight, move_shot_light.
  destruct (isShotLightPresent w), (shotLight s) as [lp|]; simpl; world_cases.
Qed.

(** [updateShotLight] keeps the shared toggle as it is, for a shot object
    present in the heap. *)
Lemma updateShotLight_toggle (s : ShotModel) (w : World) (m : ModelState) :
  heap_get (self s) (model_heap w) = Some m ->
  isShotLightPresent (snd (updateShotLight s w)) = isShotLightPresent w.
Proof.
  intros Hm.
  unfold updateShotLight, createShotLight, destroyShotLight, move_shot_light.
  destruct (isShotLightPresent w) eqn:Ep, (shotLight s) as [lp|]; simpl;
    try rewrite Hm; world_cases.
Qed.

Lemma collision_scan_frame (me : ptr) (ms : list ptr) (w : World) :
  let w' := collision_scan hc me ms w in
  model_heap w' = model_heap w /\ lights w' = lights w /\ light_heap w' = light_heap w /\
  isShotLightPresent w' = isShotLightPresent w /\
  lastShotLightChange w' = lastShotLightChange w.
Proof.
  induction ms as [|p ms IH]; simpl; [auto|].
  destruct (heap_get p (model_heap w)) as [o|], (heap_get me (model_heap w)) as [mine|];
    try exact IH.
  destruct (String.eqb (modelName o) "Enemy"); [|exact IH].
  destruct (hc mine o); [simpl; auto|exact IH].
Qed.

(** The collision loop either finds no overlapping Enemy in the snapshot and
    changes nothing, or stops at the first overlapping Enemy and deregisters
    it and the shot. *)
Lemma collision_scan_cases (me : ptr) (mine : ModelState) (ms : list ptr) (w : World) :
  heap_get me (model_heap w) = Some mine ->
  ((forall q o, In q ms -> heap_get q (model_heap w) = Some o ->
                modelName o = "Enemy" -> hc mine o = false) /\
   collision_scan hc me ms w = w)
  \/
  (exists pre p post o,
     ms = pre ++ p :: post /\ heap_get p (model_heap w) = Some o /\
     modelName o = "Enemy" /\ hc mine o = true /\
     (forall q o', In q pre -> heap_get q (model_heap w) = Some o' ->
                   modelName o' = "Enemy" -> hc mine o' = false) /\
     collision_scan hc me ms w =
       ModelManager.deregisterModel_id (modelId mine) (ModelManager.deregisterModel o w)).
Proof.
  intros Hme. induction ms as [|p ms IH].
  - left. split; [intros q o []|reflexivity].
  - simpl. rewrite Hme.
    destruct (heap_get p (model_heap w)) as [o|] eqn:Hp.
    + destruct (String.eqb (modelName o) "Enemy") eqn:En.
      * apply String.eqb_eq in En.
        destruct (hc mine o) eqn:Hc.
        -- right. exists [], p, ms, o. repeat split; auto. intros q o' [].
        -- destruct IH as [[Hall Heq]|[pre [p' [post [o' [E [H1 [H2 [H3 [H4 H5]]]]]]]]]].
           ++ left. split; [|exact Heq].
              intros q o1 [<-|Hq] Hq1 Hn; [congruence|exact (Hall q o1 Hq Hq1 Hn)].
           ++ right. exists (p :: pre), p', post, o'. subst ms.
              repeat split; auto.
              intros q o1 [<-|Hq] Hq1 Hn; [congruence|exact (H4 q o1 Hq Hq1 Hn)].
      * destruct IH as [[Hall Heq]|[pre [p' [post [o' [E [H1 [H2 [H3 [H4 H5]]]]]]]]]].
        -- left. split; [|exact Heq].
           intros q o1 [<-|Hq] Hq1 Hn;
             [rewrite Hp in Hq1; injection Hq1 as <-; rewrite Hn in En; discriminate
             |exact (Hall q o1 Hq Hq1 Hn)].
        -- right. exists (p :: pre), p', post, o'. subst ms.
           repeat split; auto.
           intros q o1 [<-|Hq] Hq1 Hn;
             [rewrite Hp in Hq1; injection Hq1 as <-; rewrite Hn in En; discriminate
             |exact (H4 q o1 Hq Hq1 Hn)].
    + destruct IH as [[Hall Heq]|[pre [p' [post [o' [E [H1 [H2 [H3 [H4 H5]]]]]]]]]].
      * left. split; [|exact Heq].
        intros q o1 [<-|Hq] Hq1 Hn; [congruence|exact (Hall q o1 Hq Hq1 Hn)].
      * right. exists (p :: pre), p', post, o'. subst ms.
        repeat split; auto.
        intros q o1 [<-|Hq] Hq1 Hn; [congruence|exact (H4 q o1 Hq Hq1 Hn)].
Qed.


Lemma update_expired (t : Q) (k : bool) (s : ShotModel) (w : World) (m : ModelState) :
  heap_get (self s) (model_heap w) = Some m ->
  (vz (modelPosition m) < -50)%Q ->
  update hc t k s w = (s, ModelManager.deregisterModel_id (modelId m) w).
Proof.
  intros Hm Hz. unfold update. rewrite Hm, (Qltb_true _ _ Hz). reflexivity.
Qed.

Lemma update_live (t : Q) (k : bool) (s : ShotModel) (w : World) (m : ModelState) :
  heap_get (self s) (model_heap w) = Some m ->
  ~ (vz (modelPosition m) < -50)%Q ->
  let m1 := setModelPosition m
              (vec3_sub (modelPosition m) (mkVec3 0 0 (100 * (t - lastTime s)))) in
  let toggle := k && Qltb (1 # 2) (t - lastShotLightChange w) in
  exists w3,
    snd (update hc t k s w) =
      collision_scan hc (self s) (ModelManager.getAllModels w3) w3 /\
    self (fst (update hc t k s w)) = self s /\
    models w3 = models w /\
    model_heap w3 = heap_set (self s) m1 (model_heap w) /\
    isShotLightPresent w3 =
      (if toggle then negb (isShotLightPresent w) else isShotLightPresent w) /\
    lastShotLightChange w3 = (if toggle then t else lastShotLightChange w).
Proof.
  intros Hm Hz m1 toggle. unfold update. rewrite Hm, (Qltb_false _ _ Hz). fold toggle.
  set (w1 := if toggle then set_toggle w (negb (isShotLightPresent w)) t else w).
  set (w2 := set_model_heap w1 (heap_set (self s) _ (model_heap w1))).
  assert (Hw2 : heap_get (self s) (model_heap w2) = Some m1).
  { unfold w2, w1. simpl. apply (heap_get_set_same _ m).
    destruct toggle; exact Hm. }
  pose proof (updateShotLight_frame s w2) as Hf.
  pose proof (updateShotLight_toggle s w2 m1 Hw2) as Ht.
  destruct (updateShotLight s w2) as [s3 w3]. simpl in Ht.
  destruct Hf as [Hs3 [Hmod [Hheap Hlast]]].
  exists w3. rewrite Hs3. repeat split.
  - rewrite Hmod. unfold w2, w1. destruct toggle; reflexivity.
  - rewrite Hheap. unfold w2, w1. destruct toggle; reflexivity.
  - rewrite Ht. unfold w2, w1. destruct toggle; reflexivity.
  - rewrite Hlast. unfold w2, w1. destruct toggle; reflexivity.
Qed.

Lemma collision_scan_nohit (me : ptr) (ms : list ptr) (w : World) :
  collision_scan (fun _ _ => false) me ms w = w.
Proof.
  induction ms as [|p ms IH]; simpl; [reflexivity|].
  destruct (heap_get p (model_heap w)), (heap_get me (model_heap w));
    try destruct (String.eqb _ _); exact IH.
Qed.
End Facts.

(** Claim C9: an update that starts with the shot beyond the boundary
    (z < -50) deregisters the shot from the model registry and does nothing
    else: the shot instance (its lastTime and light) is unchanged, no model
    moves, the light registry and light objects are untouched, the toggle and
    its timestamp are unchanged, and no other model is deregistered. *)
Theorem C9_expired_shot_only_deregisters (hc : ModelState -> ModelState -> bool)
    (t : Q) (k : bool) (s : ShotModel) (w : World) (m : ModelState) :
  heap_get (self s) (model_heap w) = Some m ->
  (vz (modelPosition m) < -50)%Q ->
  let s' := fst (update hc t k s w) in
  let w' := snd (update hc t k s w) in
  s' = s /\
  models w' = StdMap.erase (modelId m) (models w) /\
  model_heap w' = model_heap w /\
  lights w' = lights w /\ light_heap w' = light_heap w /\ next_light w' = next_light w /\
  isShotLightPresent w' = isShotLightPresent w /\
  lastShotLightChange w' = lastShotLightChange w.
Proof.
  intros Hm Hz s' w'. unfold s', w'.
  rewrite (update_expired hc t k s w m Hm Hz). simpl.
  repeat split; reflexivity.
Qed.

(** Claim C7: an update in which less than or exactly 0.5 s has passed since
    the last accepted toggle neither flips the shared light-attach flag nor
    moves the last-toggle timestamp, whatever the key state, the shot and the
    world. *)
Theorem C7_toggle_debounced (hc : ModelState -> ModelState -> bool)
    (t : Q) (k : bool) (s : ShotModel) (w : World) :
  (t - lastShotLightChange w <= 1 # 2)%Q ->
  isShotLightPresent (snd (update hc t k s w)) = isShotLightPresent w /\
  lastShotLightChange (snd (update hc t k s w)) = lastShotLightChange w.
Proof.
  intros Hd.
  destruct (heap_get (self s) (model_heap w)) as [m|] eqn:Hm.
  2:{ unfold update. rewrite Hm. split; reflexivity. }
  destruct (Qlt_le_dec (vz (modelPosition m)) (-50)) as [Hz|Hz].
  - rewrite (update_expired hc t k s w m Hm Hz). split; reflexivity.
  - assert (Hz' : ~ (vz (modelPosition m) < -50)%Q) by (apply Qle_not_lt; exact Hz).
    destruct (update_live hc t k s w m Hm Hz') as [w3 [E [_ [_ [_ [Hp Hl]]]]]].
    rewrite E.
    destruct (collision_scan_frame hc (self s) (ModelManager.getAllModels w3) w3)
      as [_ [_ [_ [Hp' Hl']]]].
    rewrite Hp', Hl', Hp, Hl.
    rewrite (Qltb_false (1 # 2) (t - lastShotLightChange w)) by (apply Qle_not_lt; exact Hd).
    rewrite andb_false_r. split; reflexivity.
Qed.

(** Claim C6: in an update of a shot within the boundary, the collision loop
    scans the snapshot of registered models in registry order, testing the
    (moved) shot against each model named "Enemy". Either no Enemy collides
    and the model registry is unchanged, or the loop stops at the first
    colliding Enemy (every Enemy before it was tested and does not collide),
    exactly that Enemy and the shot are deregistered, and every other entry,
    in particular every non-colliding Enemy's, stays registered. *)
Theorem C6_first_colliding_enemy_resolved (hc : ModelState -> ModelState -> bool)
    (t : Q) (k : bool) (s : ShotModel) (w : World) (m : ModelState) :
  heap_get (self s) (model_heap w) = Some m ->
  ~ (vz (modelPosition m) < -50)%Q ->
  let m1 := setModelPosition m
              (vec3_sub (modelPosition m) (mkVec3 0 0 (100 * (t - lastTime s)))) in
  let heap1 := heap_set (self s) m1 (model_heap w) in
  let w' := snd (update hc t k s w) in
  ((forall q o, In q (StdMap.values (models w)) -> heap_get q heap1 = Some o ->
                modelName o = "Enemy" -> hc m1 o = false) /\
   models w' = models w)
  \/
  (exists pre p post o,
     StdMap.values (models w) = pre ++ p :: post /\
     heap_get p heap1 = Some o /\ modelName o = "Enemy" /\ hc m1 o = true /\
     (forall q o', In q pre -> heap_get q heap1 = Some o' ->
                   modelName o' = "Enemy" -> hc m1 o' = false) /\
     models w' = StdMap.erase (modelId m) (StdMap.erase (modelId o) (models w)) /\
     (forall key, key <> modelId m -> key <> modelId o ->
        StdMap.find key (models w') = StdMap.find key (models w))).
Proof.
  intros Hm Hz m1 heap1 w'.
  destruct (update_live hc t k s w m Hm Hz) as [w3 [E [_ [Hmod [Hheap _]]]]].
  fold m1 in Hheap. fold heap1 in Hheap.
  assert (Hme : heap_get (self s) (model_heap w3) = Some m1).
  { rewrite Hheap. apply (heap_get_set_same _ m). exact Hm. }
  unfold w'. rewrite E. unfold ModelManager.getAllModels. rewrite Hmod.
  destruct (collision_scan_cases hc (self s) m1 (StdMap.values (models w)) w3 Hme)
    as [[Hall Heq]|[pre [p [post [o [H1 [H2 [H3 [H4 [H5 H6]]]]]]]]]];
    rewrite Hheap in *.
  - left. rewrite Heq. split; [exact Hall|exact Hmod].
  - right. exists pre, p, post, o.
    assert (Hw : models (collision_scan hc (self s) (StdMap.values (models w)) w3) =
                 StdMap.erase (modelId m) (StdMap.erase (modelId o) (models w))).
    { rewrite H6. simpl. rewrite Hmod. reflexivity. }
    repeat split; auto.
    intros key Hk1 Hk2. rewrite Hw, !StdMapFacts.find_erase.
    apply String.eqb_neq in Hk1. apply String.eqb_neq in Hk2.
    rewrite Hk1, Hk2. reflexivity.
Qed.

(** Claim C2 (counterexample): the update call that starts at z = -49.9 with
    deltaTime = 0.002 moves the shot to z = -50.1 but does not deregister it:
    the shot is still returned by getAllModels after that call. *)
Lemma C2_not_deregistered_in_same_call :
  let w' := snd (update (fun _ _ => false) (1 # 500) false sample_shot sample_world_edge) in
  In 0%nat (ModelManager.getAllModels w') /\
  match heap_get 0%nat (model_heap w') with
  | Some o => Qeq_bool (vz (modelPosition o)) (-501 # 10)
  | None => false
  end = true.
Proof. vm_compute. split; [left; reflexivity|reflexivity]. Qed.

(** Claim C2 (amended): an update that starts with the shot at z = -49.9 and
    deltaTime = 0.002 moves it to z = -50.1 without deregistering it (only a
    collision can remove it in that call; with no collision the model
    registry is unchanged); the boundary test runs on the position at the
    start of a call, so the next update call deregisters the shot. *)
Theorem C2_shot_deregistered_on_next_update (hc : ModelState -> ModelState -> bool)
    (t t' : Q) (k k' : bool) (s : ShotModel) (w : World) (m : ModelState) :
  heap_get (self s) (model_heap w) = Some m ->
  vz (modelPosition m) == -499 # 10 ->
  t - lastTime s == 1 # 500 ->
  let r1 := update hc t k s w in
  (exists m1, heap_get (self s) (model_heap (snd r1)) = Some m1 /\
              modelId m1 = modelId m /\ vz (modelPosition m1) == -501 # 10) /\
  models (snd (update (fun _ _ => false) t k s w)) = models w /\
  StdMap.find (modelId m) (models (snd (update hc t' k' (fst r1) (snd r1)))) = None.
Proof.
  intros Hm Hz Ht r1.
  assert (Hz' : ~ (vz (modelPosition m) < -50)%Q).
  { rewrite Hz. apply Qle_not_lt. apply Qle_bool_imp_le. reflexivity. }
  set (m1 := setModelPosition m
               (vec3_sub (modelPosition m) (mkVec3 0 0 (100 * (t - lastTime s))))).
  assert (Hm1 : vz (modelPosition m1) == -501 # 10).
  { unfold m1. simpl. rewrite Hz, Ht. reflexivity. }
  destruct (update_live hc t k s w m Hm Hz') as [w3 [E [Hself [Hmod [Hheap _]]]]].
  fold m1 in Hheap.
  assert (Hh1 : heap_get (self s) (model_heap (snd r1)) = Some m1).
  { unfold r1. rewrite E.
    destruct (collision_scan_frame hc (self s) (ModelManager.getAllModels w3) w3)
      as [Hh _].
    rewrite Hh, Hheap. apply (heap_get_set_same _ m). exact Hm. }
  split; [exists m1; split; [exact Hh1|split; [reflexivity|exact Hm1]]|split].
  - destruct (update_live (fun _ _ => false) t k s w m Hm Hz')
      as [w3' [E' [_ [Hmod' _]]]].
    rewrite E', collision_scan_nohit. exact Hmod'.
  - assert (Hs1 : self (fst r1) = self s) by exact Hself.
    assert (Hlt : (vz (modelPosition m1) < -50)%Q).
    { rewrite Hm1. apply Qnot_le_lt. intros H. apply Qle_bool_iff in H. discriminate. }
    rewrite <- Hs1 in Hh1.
    rewrite (update_expired hc t' k' (fst r1) (snd r1) m1 Hh1 Hlt). simpl.
    rewrite StdMapFacts.find_erase. simpl. rewrite String.eqb_refl. reflexivity.
Qed.

(** Witness for C9: the shot "shot0" at z = -51 is deregistered and the
    shot instance is returned unchanged. *)
Lemma C9_witness :
  heap_get 0%nat (model_heap sample_world_out) = Some (sample_model_state "shot0" "Shot" (-51)) /\
  (vz (modelPosition (sample_model_state "shot0" "Shot" (-51))) < -50)%Q /\
  fst (update sample_collide 1 true sample_shot sample_world_out) = sample_shot /\
  models (snd (update sample_collide 1 true sample_shot sample_world_out))
    = StdMap.erase "shot0" (models sample_world_out).
Proof.
  assert (Hm : heap_get 0%nat (model_heap sample_world_out)
               = Some (sample_model_state "shot0" "Shot" (-51))) by reflexivity.
  assert (Hz : (vz (modelPosition (sample_model_state "shot0" "Shot" (-51))) < -50)%Q)
    by (vm_compute; reflexivity).
  destruct (C9_expired_shot_only_deregisters sample_collide 1 true sample_shot
              sample_world_out _ Hm Hz) as [H1 [H2 _]].
  split; [exact Hm|split; [exact Hz|split; [exact H1|exact H2]]].
Defined.

(** Witness for C7: an accepted toggle at t = 0.1 (from lastShotLightChange
    = -1), then a second press at t = 0.5, 0.4 s later, leaves the flag and
    the timestamp as the first toggle set them. *)
Lemma C7_witness :
  let r1 := update sample_collide (1 # 10) true sample_shot sample_world_enemies in
  isShotLightPresent (snd r1) = false /\
  ((1 # 2) - lastShotLightChange (snd r1) <= 1 # 2)%Q /\
  isShotLightPresent (snd (update sample_collide (1 # 2) true (fst r1) (snd r1))) = false /\
  lastShotLightChange (snd (update sample_collide (1 # 2) true (fst r1) (snd r1)))
    = lastShotLightChange (snd r1).
Proof.
  intros r1.
  assert (Hp : isShotLightPresent (snd r1) = false) by (vm_compute; reflexivity).
  assert (Hd : ((1 # 2) - lastShotLightChange (snd r1) <= 1 # 2)%Q)
    by (apply Qle_bool_imp_le; vm_compute; reflexivity).
  destruct (C7_toggle_debounced sample_collide (1 # 2) true (fst r1) (snd r1) Hd) as [H1 H2].
  split; [exact Hp|split; [exact Hd|split; [rewrite H1; exact Hp|exact H2]]].
Defined.

(** Witness for C6: with "enemyA" colliding and "enemyB" not, the update of
    "shot0" at z = 0 takes the second branch, and "enemyB" stays
    registered. *)
Lemma C6_witness :
  heap_get 0%nat (model_heap sample_world_enemies) = Some (sample_model_state "shot0" "Shot" 0) /\
  ~ (vz (modelPosition (sample_model_state "shot0" "Shot" 0)) < -50)%Q /\
  StdMap.find "enemyB"
    (models (snd (update sample_collide (1 # 10) false sample_shot sample_world_enemies)))
    = StdMap.find "enemyB" (models sample_world_enemies) /\
  StdMap.find "enemyB" (models sample_world_enemies) <> None.
Proof.
  assert (Hm : heap_get 0%nat (model_heap sample_world_enemies)
               = Some (sample_model_state "shot0" "Shot" 0)) by reflexivity.
  assert (Hz : ~ (vz (modelPosition (sample_model_state "shot0" "Shot" 0)) < -50)%Q).
  { apply Qle_not_lt. apply Qle_bool_imp_le. vm_compute. reflexivity. }
  split; [exact Hm|split; [exact Hz|split; [|vm_compute; discriminate]]].
  destruct (C6_first_colliding_enemy_resolved sample_collide (1 # 10) false sample_shot
              sample_world_enemies _ Hm Hz)
    as [[_ Heq]|[pre [p [post [o [_ [_ [_ [Hc [_ [_ Hk]]]]]]]]]]].
  - exfalso. revert Heq. vm_compute. discriminate.
  - apply Hk; [discriminate|].
    unfold sample_collide in Hc. apply String.eqb_eq in Hc. rewrite Hc. discriminate.
Defined.

(** Witness for C2: the shot at z = -49.9 with lastTime = 0 is updated at
    t = 0.002 and again at t = 0.004; the second call deregisters it. *)
Lemma C2_witness :
  heap_get 0%nat (model_heap sample_world_edge)
    = Some (sample_model_state "shot0" "Shot" (-499 # 10)) /\
  StdMap.find "shot0"
    (models (snd (update sample_collide (1 # 250) false
       (fst (update sample_collide (1 # 500) false sample_shot sample_world_edge))
       (snd (update sample_collide (1 # 500) false sample_shot sample_world_edge)))))
    = None.
Proof.
  assert (Hm : heap_get 0%nat (model_heap sample_world_edge)
               = Some (sample_model_state "shot0" "Shot" (-499 # 10))) by reflexivity.
  assert (Ht : (1 # 500) - lastTime sample_shot == 1 # 500)
    by (apply Qeq_bool_eq; vm_compute; reflexivity).
  split; [exact Hm|].
  exact (proj2 (proj2 (C2_shot_deregistered_on_next_update sample_collide (1 # 500) (1 # 250)
           false false sample_shot sample_world_edge _ Hm (Qeq_refl _) Ht))).
Defined.

End ShotProps.

(** * Further properties of the render manager *)
Module RenderExtra.
Import Render.

Section RenderExtra.
Variable M : Type.
Variable mmul : M -> M -> M.
Variable mat4_default : M.

(** ** Generic facts on the observations *)

Lemma draw_targets_app (fb : Z) (a b : list (glcall M)) :
  draw_targets M fb (a ++ b) = draw_targets M fb a ++ draw_targets M (fb_after M fb a) b.
Proof.
  revert fb. induction a as [|c a IH]; intros fb; [reflexivity|].
  destruct c; simpl; rewrite ?IH; reflexivity.
Qed.

Lemma fb_after_app (fb : Z) (a b : list (glcall M)) :
  fb_after M fb (a ++ b) = fb_after M (fb_after M fb a) b.
Proof.
  revert fb. induction a as [|c a IH]; intros fb; [reflexivity|].
  destruct c; simpl; rewrite ?IH; reflexivity.
Qed.

Lemma uniforms_in_use_app (cur : option Z) (a b : list (glcall M)) :
  uniforms_in_use M cur (a ++ b) =
  uniforms_in_use M cur a && uniforms_in_use M (program_after M cur a) b.
Proof.
  revert cur. induction a as [|c a IH]; intros cur; [reflexivity|].
  destruct c; simpl; rewrite ?IH; try reflexivity.
  destruct cur as [p|]; [|reflexivity]. rewrite andb_assoc. reflexivity.
Qed.

Lemma program_after_app (cur : option Z) (a b : list (glcall M)) :
  program_after M cur (a ++ b) = program_after M (program_after M cur a) b.
Proof.
  revert cur. induction a as [|c a IH]; intros cur; [reflexivity|].
  destruct c; simpl; rewrite ?IH; reflexivity.
Qed.

Lemma uploads_app (n : string) (a b : list (glcall M)) :
  uploads M n (a ++ b) = uploads M n a ++ uploads M n b.
Proof.
  induction a as [|c a IH]; [reflexivity|].
  destruct c; simpl; try exact IH.
  destruct (String.eqb _ n); simpl; rewrite IH; reflexivity.
Qed.

Lemma uploads_flat_map_nil {A} (n : string) (f : A -> list (glcall M)) (l : list A) :
  (forall x, uploads M n (f x) = []) -> uploads M n (flat_map f l) = [].
Proof.
  intros H. induction l as [|x l IH]; simpl; [reflexivity|].
  rewrite uploads_app, H, IH. reflexivity.
Qed.

Lemma forallb_indexed (q : glcall M -> bool) (f : nat -> LightDetails M -> list (glcall M)) :
  (forall i ld, forallb q (f i ld) = true) ->
  forall l i, forallb q (indexed_calls M f i l) = true.
Proof.
  intros H l. induction l as [|ld l IH]; intros i; simpl; [reflexivity|].
  rewrite forallb_app, H, IH. reflexivity.
Qed.

Lemma uploads_indexed_nil (n : string) (f : nat -> LightDetails M -> list (glcall M)) :
  (forall i ld, uploads M n (f i ld) = []) ->
  forall l i, uploads M n (indexed_calls M f i l) = [].
Proof.
  intros H l. induction l as [|ld l IH]; intros i; simpl; [reflexivity|].
  rewrite uploads_app, H, IH. reflexivity.
Qed.

(** Calls that neither bind a framebuffer nor draw. *)
Lemma fb_quiet (a b : list (glcall M)) (fb : Z) :
  forallb (fun c => match c with BindFramebuffer _ _ | DrawArrays _ _ => false | _ => true end) a
    = true ->
  draw_targets M fb (a ++ b) = draw_targets M fb b /\ fb_after M fb (a ++ b) = fb_after M fb b.
Proof.
  revert fb. induction a as [|c a IH]; intros fb H; [split; reflexivity|].
  simpl in H. apply andb_prop in H as [Hc Ha].
  destruct c; try discriminate; simpl; apply IH; exact Ha.
Qed.

(** Calls that switch no program and set only uniforms of [sid]. *)
Lemma prog_quiet (sid : Z) (a b : list (glcall M)) :
  forallb (fun c => match c with
                    | UseProgram _ _ => false
                    | Uniform _ s _ _ => Z.eqb sid s
                    | _ => true end) a = true ->
  uniforms_in_use M (Some sid) (a ++ b) = uniforms_in_use M (Some sid) b /\
  program_after M (Some sid) (a ++ b) = program_after M (Some sid) b.
Proof.
  induction a as [|c a IH]; intros H; [split; reflexivity|].
  simpl in H. apply andb_prop in H as [Hc Ha].
  destruct c; try discriminate; simpl; try (apply IH; exact Ha).
  rewrite Hc. simpl. apply IH. exact Ha.
Qed.

Lemma draw_with_arrays_obs (used : list Z) (arrays : list (Z * Z)) (count : Z) :
  let tr := draw_with_arrays M used arrays count in
  (forall fb, draw_targets M fb tr = [fb] /\ fb_after M fb tr = fb) /\
  (forall cur, uniforms_in_use M cur tr = true /\ program_after M cur tr = cur) /\
  (forall n, uploads M n tr = []).
Proof.
  intros tr. unfold tr, draw_with_arrays.
  generalize (alloc_arrays used arrays) as a. intros a.
  assert (E : forall (l : list (Z * Z * Z)) rest,
      let en := map (fun '(id, buf, sz) => EnableVertexAttribArray M id buf sz) l in
      let dis := map (fun '(id, _, _) => DisableVertexAttribArray M id) l in
      (forall fb, draw_targets M fb (en ++ rest) = draw_targets M fb rest /\
                  fb_after M fb (en ++ rest) = fb_after M fb rest /\
                  draw_targets M fb (dis ++ rest) = draw_targets M fb rest /\
                  fb_after M fb (dis ++ rest) = fb_after M fb rest) /\
      (forall cur, uniforms_in_use M cur (en ++ rest) = uniforms_in_use M cur rest /\
                   program_after M cur (en ++ rest) = program_after M cur rest /\
                   uniforms_in_use M cur (dis ++ rest) = uniforms_in_use M cur rest /\
                   program_after M cur (dis ++ rest) = program_after M cur rest) /\
      (forall n, uploads M n en = [] /\ uploads M n dis = [])).
  { induction l as [|[[id buf] sz] l IH]; intros rest; simpl;
      [repeat split; reflexivity|].
    destruct (IH rest) as [H1 [H2 H3]]. repeat split; intros; simpl;
      try apply H1; try apply H2; try apply H3. }
  destruct (E a []) as [_ [_ Hu]]. destruct (E (rev a) []) as [_ [_ Hu']].
  split; [|split].
  - intros fb. destruct (E a ([DrawArrays M count] ++
        map (fun '(id, _, _) => DisableVertexAttribArray M id) (rev a))) as [H1 _].
    destruct (H1 fb) as [-> [-> _]].
    destruct (E (rev a) []) as [H2 _]. destruct (H2 fb) as [_ [_ [D F]]].
    rewrite app_nil_r in D, F. simpl. rewrite D, F. split; reflexivity.
  - intros cur. destruct (E a ([DrawArrays M count] ++
        map (fun '(id, _, _) => DisableVertexAttribArray M id) (rev a))) as [_ [H1 _]].
    destruct (H1 cur) as [-> [-> _]].
    destruct (E (rev a) []) as [_ [H2 _]]. destruct (H2 cur) as [_ [_ [D F]]].
    rewrite app_nil_r in D, F. simpl. rewrite D, F. split; reflexivity.
  - intros n. rewrite !uploads_app. rewrite (proj1 (Hu n)), (proj2 (Hu' n)). reflexivity.
Qed.

(** Every call of a shadow draw before its attribute arrays is a uniform of
    the light's program. *)
Lemma shadow_model_calls_split (used : list Z) (l : LightBase M) (ld : LightDetails M)
    (m : ModelBase M) :
  exists pre,
    shadow_model_calls M mmul mat4_default used l ld m =
      pre ++ draw_with_arrays M used [(getVertexBufferId (getObjectDetails M m), 3%Z)]
                (getBufferSize (getObjectDetails M m)) /\
    forall q : glcall M -> bool,
      (forall n v, q (Uniform M (getLightShaderId M l) n v) = true) -> forallb q pre = true.
Proof.
  unfold shadow_model_calls. cbv zeta.
  eexists. split; [rewrite !app_assoc; reflexivity|].
  intros q Hq. rewrite !forallb_app. simpl. rewrite !Hq. simpl.
  rewrite RenderProps.forallb_flat_map; [reflexivity|].
  intros i _. simpl. rewrite !Hq. reflexivity.
Qed.

(** Every call of a main-pass model draw before its attribute arrays is a
    uniform of the model's program or a texture selection/binding. *)
Lemma model_calls_split (rm : RenderManager M) (cat : Categorized M) (dt tt : Q)
    (v p : M) (m : ModelBase M) :
  let od := getObjectDetails M m in
  exists pre,
    model_calls M mmul mat4_default rm cat dt tt v p m =
      pre ++ draw_with_arrays M (attributeIds M rm)
        [(getVertexBufferId od, 3%Z); (getUvBufferId od, 2%Z); (getNormalBufferId od, 3%Z)]
        (getBufferSize od) /\
    forall q : glcall M -> bool,
      (forall n v, q (Uniform M (getModelShaderId M m) n v) = true) ->
      (forall u, q (ActiveTexture M u) = true) ->
      (forall tg tex, q (BindTexture M tg tex) = true) ->
      forallb q pre = true.
Proof.
  intros od. unfold model_calls. cbv zeta.
  eexists. split; [rewrite app_assoc; reflexivity|].
  intros q Hu Ha Hb. unfold texture_calls. cbv zeta. rewrite !forallb_app.
  cbn [forallb]. rewrite !Hu, Ha, Hb. cbn [andb].
  rewrite !forallb_indexed, !RenderProps.forallb_flat_map; try reflexivity;
    intros; cbn; rewrite ?Hu, ?Ha, ?Hb; reflexivity.
Qed.

Ltac obs_close Hd Hp Hq :=
  first [ apply Hd
        | apply (proj1 (Hp _))
        | apply (proj2 (Hp _))
        | apply Hq; intros; first [reflexivity | apply Z.eqb_refl] ].

Lemma shadow_model_obs (used : list Z) (l : LightBase M) (ld : LightDetails M)
    (m : ModelBase M) :
  let tr := shadow_model_calls M mmul mat4_default used l ld m in
  (forall fb, draw_targets M fb tr = [fb] /\ fb_after M fb tr = fb) /\
  uniforms_in_use M (Some (getLightShaderId M l)) tr = true /\
  program_after M (Some (getLightShaderId M l)) tr = Some (getLightShaderId M l).
Proof.
  intros tr. destruct (shadow_model_calls_split used l ld m) as [pre [E Hq]].
  unfold tr. rewrite E. set (D := draw_with_arrays M _ _ _).
  destruct (draw_with_arrays_obs used [(getVertexBufferId (getObjectDetails M m), 3%Z)]
              (getBufferSize (getObjectDetails M m))) as [Hd [Hp _]].
  fold D in Hd, Hp.
  split; [|split].
  - intros fb. destruct (fb_quiet pre D fb) as [-> ->]; obs_close Hd Hp Hq.
  - destruct (prog_quiet (getLightShaderId M l) pre D) as [-> _]; obs_close Hd Hp Hq.
  - destruct (prog_quiet (getLightShaderId M l) pre D) as [_ ->]; obs_close Hd Hp Hq.
Qed.

Lemma model_obs (rm : RenderManager M) (cat : Categorized M) (dt tt : Q)
    (v p : M) (m : ModelBase M) :
  let tr := model_calls M mmul mat4_default rm cat dt tt v p m in
  (forall fb, draw_targets M fb tr = [fb] /\ fb_after M fb tr = fb) /\
  uniforms_in_use M (Some (getModelShaderId M m)) tr = true /\
  program_after M (Some (getModelShaderId M m)) tr = Some (getModelShaderId M m).
Proof.
  intros tr. destruct (model_calls_split rm cat dt tt v p m) as [pre [E Hq]].
  unfold tr. rewrite E. set (D := draw_with_arrays M _ _ _).
  destruct (draw_with_arrays_obs (attributeIds M rm)
     [(getVertexBufferId (getObjectDetails M m), 3%Z);
      (getUvBufferId (getObjectDetails M m), 2%Z);
      (getNormalBufferId (getObjectDetails M m), 3%Z)]
     (getBufferSize (getObjectDetails M m))) as [Hd [Hp _]].
  fold D in Hd, Hp.
  split; [|split].
  - intros fb. destruct (fb_quiet pre D fb) as [-> ->]; obs_close Hd Hp Hq.
  - destruct (prog_quiet (getModelShaderId M m) pre D) as [-> _]; obs_close Hd Hp Hq.
  - destruct (prog_quiet (getModelShaderId M m) pre D) as [_ ->]; obs_close Hd Hp Hq.
Qed.


Lemma main_pass_prog (rm : RenderManager M) (cat : Categorized M) (dt tt : Q) (v p : M)
    (ms : list (ModelBase M)) :
  Forall (fun m => 0 <= getModelShaderId M m)%Z ms ->
  forall shaderId cur, (shaderId <> -1 -> cur = Some shaderId)%Z ->
  uniforms_in_use M cur (main_pass M mmul mat4_default rm cat dt tt v p shaderId ms) = true.
Proof.
  induction ms as [|m ms IH]; intros Hms shaderId cur Hinv; cbn [main_pass]; [reflexivity|].
  inversion Hms as [|? ? Hm Hms']; subst.
  destruct (model_obs rm cat dt tt v p m) as [_ [Hu Hpa]].
  set (A := if Z.eqb shaderId (getModelShaderId M m) then []
            else [UseProgram M (getModelShaderId M m)]).
  assert (Hc : program_after M cur A = Some (getModelShaderId M m) /\
               uniforms_in_use M cur A = true).
  { unfold A. destruct (Z.eqb shaderId (getModelShaderId M m)) eqn:E; simpl;
      [apply Z.eqb_eq in E; subst; split; [apply Hinv; lia|reflexivity]
      |split; reflexivity]. }
  destruct Hc as [Hc1 Hc2].
  rewrite !uniforms_in_use_app, Hc2, Hc1, Hu, Hpa. cbn [andb].
  apply IH; [exact Hms'|]. intros _. reflexivity.
Qed.

Lemma shadow_models_obs (used : list Z) (l : LightBase M) (ld : LightDetails M)
    (ms : list (ModelBase M)) :
  let tr := flat_map (shadow_model_calls M mmul mat4_default used l ld) ms in
  (forall fb, draw_targets M fb tr = repeat fb (length ms) /\ fb_after M fb tr = fb) /\
  uniforms_in_use M (Some (getLightShaderId M l)) tr = true /\
  program_after M (Some (getLightShaderId M l)) tr = Some (getLightShaderId M l).
Proof.
  induction ms as [|m ms IH]; cbn [flat_map length repeat]; [repeat split; reflexivity|].
  destruct IH as [IHd [IHu IHp]].
  destruct (shadow_model_obs used l ld m) as [Hd [Hu Hp]].
  split; [|split].
  - intros fb. destruct (Hd fb) as [D F]. destruct (IHd fb) as [D' F'].
    rewrite draw_targets_app, fb_after_app, F, D, D', F'. split; reflexivity.
  - rewrite uniforms_in_use_app, Hu, Hp, IHu. reflexivity.
  - rewrite program_after_app, Hp, IHp. reflexivity.
Qed.


Lemma shadow_blocks_prog (rm : RenderManager M) (ls : list (LightBase M)) :
  Forall (fun l => 0 <= getLightShaderId M l)%Z ls ->
  forall shaderId cur, (shaderId <> -1 -> cur = Some shaderId)%Z ->
  uniforms_in_use M cur (shadow_blocks M mmul mat4_default rm shaderId ls) = true.
Proof.
  induction ls as [|l ls IH]; intros Hls shaderId cur Hinv; cbn [shadow_blocks]; [reflexivity|].
  inversion Hls as [|? ? Hl Hls']; subst.
  unfold light_block.
  destruct (shadow_models_obs (attributeIds M rm) l (light_details M mmul mat4_default l)
              (StdMap.values (registeredModels M rm))) as [_ [Hu Hp]].
  set (A := if Z.eqb shaderId (getLightShaderId M l) then []
            else [UseProgram M (getLightShaderId M l)]).
  assert (Hc : program_after M cur A = Some (getLightShaderId M l) /\
               uniforms_in_use M cur A = true).
  { unfold A. destruct (Z.eqb shaderId (getLightShaderId M l)) eqn:E; simpl;
      [apply Z.eqb_eq in E; subst; split; [apply Hinv; lia|reflexivity]
      |split; reflexivity]. }
  destruct Hc as [Hc1 Hc2].
  rewrite <- !app_assoc.
  rewrite !uniforms_in_use_app, ?program_after_app. cbn [uniforms_in_use program_after].
  rewrite Hc2, Hc1, Hu, Hp. cbn [andb uniforms_in_use program_after].
  apply IH; [exact Hls'|]. intros _. reflexivity.
Qed.

(** The calls of [render]: the shadow pass, the viewport switch and clear of
    the main pass, then the model draws when the active camera is
    registered. *)
Lemma render_trace (rm : RenderManager M) (t : Q) :
  fst (render M mmul mat4_default rm t) =
    [SwitchToFrameBufferViewport M; SetClearColor M 1 1 1 1]
    ++ shadow_blocks M mmul mat4_default rm (-1) (StdMap.values (registeredLights M rm))
    ++ [SwitchToWindowViewport M; SetClearColor M 0 0 0 1; ClearScreen M]
    ++ match StdMap.find (activeCameraId M rm) (registeredCameras M rm) with
       | Some cam =>
           main_pass M mmul mat4_default rm (snd (renderLights M mmul mat4_default rm))
             (t - lastTime M rm) (t - startTime M rm) (getViewMatrix M cam)
             (getProjectionMatrix M cam) (-1) (StdMap.values (registeredModels M rm))
       | None => []
       end /\
  snd (render M mmul mat4_default rm t) =
    match StdMap.find (activeCameraId M rm) (registeredCameras M rm) with
    | Some _ => Some (with_lastTime M rm t)
    | None => None
    end.
Proof.
  unfold render. rewrite (RenderProps.renderLights_split M mmul mat4_default rm).
  cbn beta iota. rewrite RenderProps.shadow_pass_trace.
  unfold renderModels. cbv zeta.
  destruct (StdMap.find (activeCameraId M rm) (registeredCameras M rm)); cbn [fst snd];
    rewrite ?app_nil_r, <- !app_assoc; split; reflexivity.
Qed.

Lemma shadow_pass_cat (rm : RenderManager M) (ls : list (LightBase M)) :
  forall sid cat,
  snd (shadow_pass M mmul mat4_default rm sid ls cat) =
  {| cat_simple := cat_simple M cat
                   ++ map (light_details M mmul mat4_default) (filter (is_simple M) ls);
     cat_cube := cat_cube M cat
                 ++ map (light_details M mmul mat4_default)
                        (filter (fun l => negb (is_simple M l)) ls) |}.
Proof.
  induction ls as [|l ls IH]; intros sid cat; simpl.
  - rewrite !app_nil_r. destruct cat; reflexivity.
  - specialize (IH (getLightShaderId M l)
                   (cat_push M cat (getShadowBufferType (getShadowBufferDetails M l))
                      (light_details M mmul mat4_default l))).
    destruct (shadow_pass M mmul mat4_default rm _ ls _) as [tr c]. simpl in *.
    rewrite IH. unfold is_simple, cat_push.
    destruct (getShadowBufferType (getShadowBufferDetails M l)); simpl;
      rewrite <- !app_assoc; reflexivity.
Qed.

Lemma uploads_draw (n : string) (used : list Z) (arrays : list (Z * Z)) (count : Z) :
  uploads M n (draw_with_arrays M used arrays count) = [].
Proof.
  destruct (draw_with_arrays_obs used arrays count) as [_ [_ H]]. apply H.
Qed.

Lemma uploads_texture_calls (rm : RenderManager M) (cat : Categorized M) (m : ModelBase M)
    (n : string) :
  In n ["simpleLightsCount"; "cubeLightsCount"; "timeDetails.totalTime";
        "timeDetails.deltaTime"] ->
  uploads M n (texture_calls M rm cat m) = [].
Proof.
  intros Hn. unfold texture_calls. cbv zeta. rewrite !uploads_app.
  rewrite !uploads_indexed_nil, !uploads_flat_map_nil;
    intros; destruct Hn as [<-|[<-|[<-|[<-|[]]]]]; cbn; reflexivity.
Qed.

Lemma uploads_model_calls (rm : RenderManager M) (cat : Categorized M) (dt tt : Q)
    (v p : M) (m : ModelBase M) :
  let sid := getModelShaderId M m in
  let tr := model_calls M mmul mat4_default rm cat dt tt v p m in
  uploads M "simpleLightsCount" tr = [(sid, UInt M (Z.of_nat (length (cat_simple M cat))))] /\
  uploads M "cubeLightsCount" tr = [(sid, UInt M (Z.of_nat (length (cat_cube M cat))))] /\
  uploads M "timeDetails.totalTime" tr = [(sid, UFloat M tt)] /\
  uploads M "timeDetails.deltaTime" tr = [(sid, UFloat M dt)].
Proof.
  intros sid tr. unfold tr, model_calls. cbv zeta.
  repeat split; rewrite !uploads_app, uploads_texture_calls, uploads_draw;
    try reflexivity; simpl; auto 6.
Qed.

Lemma uploads_main_pass (rm : RenderManager M) (cat : Categorized M) (dt tt : Q)
    (v p : M) (n : string) (f : ModelBase M -> uval M) :
  (forall m, uploads M n (model_calls M mmul mat4_default rm cat dt tt v p m)
             = [(getModelShaderId M m, f m)]) ->
  forall ms shaderId,
  uploads M n (main_pass M mmul mat4_default rm cat dt tt v p shaderId ms) =
    map (fun m => (getModelShaderId M m, f m)) ms.
Proof.
  intros Hf ms. induction ms as [|m ms IH]; intros shaderId; cbn [main_pass map];
    [reflexivity|].
  rewrite !uploads_app, Hf, IH. destruct (Z.eqb _ _); reflexivity.
Qed.

Lemma uploads_shadow_blocks (rm : RenderManager M) (n : string) :
  In n ["simpleLightsCount"; "cubeLightsCount"; "timeDetails.totalTime";
        "timeDetails.deltaTime"] ->
  forall ls sid, uploads M n (shadow_blocks M mmul mat4_default rm sid ls) = [].
Proof.
  intros Hn ls. induction ls as [|l ls IH]; intros sid; cbn [shadow_blocks]; [reflexivity|].
  rewrite uploads_app, IH, app_nil_r. unfold light_block.
  rewrite !uploads_app, uploads_flat_map_nil.
  - destruct (Z.eqb sid _); reflexivity.
  - intros m. unfold shadow_model_calls. cbv zeta.
    rewrite !uploads_app, uploads_draw, uploads_flat_map_nil.
    + destruct Hn as [<-|[<-|[<-|[<-|[]]]]]; reflexivity.
    + intros i. destruct Hn as [<-|[<-|[<-|[<-|[]]]]]; cbn; reflexivity.
Qed.

Lemma render_uploads (rm : RenderManager M) (t : Q) (cam : CameraBase M) (n : string)
    (f : ModelBase M -> uval M) :
  StdMap.find (activeCameraId M rm) (registeredCameras M rm) = Some cam ->
  In n ["simpleLightsCount"; "cubeLightsCount"; "timeDetails.totalTime";
        "timeDetails.deltaTime"] ->
  (forall m, uploads M n (model_calls M mmul mat4_default rm
                (snd (renderLights M mmul mat4_default rm)) (t - lastTime M rm)
                (t - startTime M rm) (getViewMatrix M cam) (getProjectionMatrix M cam) m)
             = [(getModelShaderId M m, f m)]) ->
  uploads M n (fst (render M mmul mat4_default rm t)) =
    map (fun m => (getModelShaderId M m, f m)) (StdMap.values (registeredModels M rm)).
Proof.
  intros Hc Hn Hf. rewrite (proj1 (render_trace rm t)), Hc.
  rewrite !uploads_app, uploads_shadow_blocks by exact Hn.
  rewrite (uploads_main_pass _ _ _ _ _ _ n f Hf). reflexivity.
Qed.




(** [RenderManager::renderLights] sorts every registered light, in the
    order of the registry, into the simple or the cube list by the type of
    its shadow buffer. *)
Theorem renderLights_categorized (rm : RenderManager M) :
  snd (renderLights M mmul mat4_default rm) =
  {| cat_simple := map (light_details M mmul mat4_default)
                     (filter (is_simple M) (StdMap.values (registeredLights M rm)));
     cat_cube := map (light_details M mmul mat4_default)
                   (filter (fun l => negb (is_simple M l))
                      (StdMap.values (registeredLights M rm))) |}.
Proof.
  rewrite RenderProps.renderLights_split. cbn [snd]. rewrite shadow_pass_cat. reflexivity.
Qed.


(** When every light and model has a real shader (a non-negative id),
    each uniform of a frame is set while its own shader program is in use,
    whatever program was in use before the frame. *)
Theorem render_uniforms_in_use (rm : RenderManager M) (t : Q) (cur : option Z) :
  Forall (fun l => 0 <= getLightShaderId M l)%Z (StdMap.values (registeredLights M rm)) ->
  Forall (fun m => 0 <= getModelShaderId M m)%Z (StdMap.values (registeredModels M rm)) ->
  uniforms_in_use M cur (fst (render M mmul mat4_default rm t)) = true.
Proof.
  intros Hl Hm. rewrite (proj1 (render_trace rm t)).
  rewrite !uniforms_in_use_app. cbn [uniforms_in_use program_after andb].
  rewrite (shadow_blocks_prog rm _ Hl (-1)) by (intros []; reflexivity). cbn [andb].
  destruct (StdMap.find _ _); [|reflexivity].
  apply main_pass_prog; [exact Hm|intros []; reflexivity].
Qed.

(** With the active camera registered, the frame sets, once for each
    model and in the model's own shader, the number of simple lights and
    the number of cube lights registered. *)
Theorem render_light_counts (rm : RenderManager M) (t : Q) (cam : CameraBase M) :
  StdMap.find (activeCameraId M rm) (registeredCameras M rm) = Some cam ->
  let ls := StdMap.values (registeredLights M rm) in
  let frame := fst (render M mmul mat4_default rm t) in
  uploads M "simpleLightsCount" frame =
    map (fun m => (getModelShaderId M m, UInt M (Z.of_nat (length (filter (is_simple M) ls)))))
      (StdMap.values (registeredModels M rm)) /\
  uploads M "cubeLightsCount" frame =
    map (fun m => (getModelShaderId M m,
                   UInt M (Z.of_nat (length (filter (fun l => negb (is_simple M l)) ls)))))
      (StdMap.values (registeredModels M rm)).
Proof.
  intros Hc ls frame. unfold frame.
  split; (erewrite render_uploads; [reflexivity|exact Hc|simpl; auto 6|]);
    intros m; rewrite renderLights_categorized;
    destruct (uploads_model_calls rm
                {| cat_simple := map (light_details M mmul mat4_default) (filter (is_simple M) ls);
                   cat_cube := map (light_details M mmul mat4_default)
                                 (filter (fun l => negb (is_simple M l)) ls) |}
                (t - lastTime M rm) (t - startTime M rm) (getViewMatrix M cam)
                (getProjectionMatrix M cam) m) as [A [B _]];
    cbn [cat_simple cat_cube] in A, B; rewrite length_map in A, B;
    [exact A|exact B].
Qed.

(** A frame that follows a frame rendered at [t1] sets, for each model,
    the time since [t1] as its delta time and the time since the manager
    started as its total time. *)
Theorem render_time_uniforms (rm rm1 : RenderManager M) (t1 t2 : Q) :
  snd (render M mmul mat4_default rm t1) = Some rm1 ->
  let frame := fst (render M mmul mat4_default rm1 t2) in
  uploads M "timeDetails.deltaTime" frame =
    map (fun m => (getModelShaderId M m, UFloat M (t2 - t1)))
      (StdMap.values (registeredModels M rm)) /\
  uploads M "timeDetails.totalTime" frame =
    map (fun m => (getModelShaderId M m, UFloat M (t2 - startTime M rm)))
      (StdMap.values (registeredModels M rm)).
Proof.
  intros H frame. rewrite (proj2 (render_trace rm t1)) in H.
  destruct (StdMap.find (activeCameraId M rm) (registeredCameras M rm)) as [cam|] eqn:Ec;
    [|discriminate].
  injection H as <-. unfold frame.
  split; (erewrite render_uploads; [reflexivity|exact Ec|simpl; auto 6|]);
    intros m;
    destruct (uploads_model_calls (with_lastTime M rm t1)
                (snd (renderLights M mmul mat4_default (with_lastTime M rm t1)))
                (t2 - t1) (t2 - startTime M rm) (getViewMatrix M cam)
                (getProjectionMatrix M cam) m) as [_ [_ [A B]]];
    [exact B|exact A].
Qed.

(** A frame produces a next manager state exactly when the active camera
    id is registered; registering a camera and making it active makes the
    next frame succeed, and deregistering the active camera makes it fail. *)
Theorem render_active_camera (rm : RenderManager M) (t : Q) (c : CameraBase M) :
  (snd (render M mmul mat4_default rm t) = None <->
   StdMap.find (activeCameraId M rm) (registeredCameras M rm) = None) /\
  snd (render M mmul mat4_default (registerActiveCamera M c (registerCamera M c rm)) t)
    <> None /\
  snd (render M mmul mat4_default (deregisterCamera_id M (activeCameraId M rm) rm) t) = None.
Proof.
  rewrite !(proj2 (render_trace _ t)).
  split; [destruct (StdMap.find _ _); split; congruence|split].
  - cbn [registerActiveCamera registerActiveCamera_id registerCamera set_cameras
         activeCameraId registeredCameras].
    unfold Registry.register. rewrite StdMapFacts.find_insert, String.eqb_refl.
    discriminate.
  - cbn [deregisterCamera_id set_cameras activeCameraId registeredCameras].
    unfold Registry.deregister_id. rewrite StdMapFacts.find_erase, String.eqb_refl.
    reflexivity.
Qed.



(** With eight or more simple lights, texture unit 8 is bound twice in one
    model draw: to the eighth simple light's 2D shadow texture and to a
    cube map. *)
Theorem model_calls_unit8_shared (rm : RenderManager M) (cat : Categorized M) (dt tt : Q)
    (v p : M) (m : ModelBase M) :
  (8 <= length (cat_simple M cat))%nat ->
  let tr := model_calls M mmul mat4_default rm cat dt tt v p m in
  In (8%Z, GL_TEXTURE_2D, nth 7 (map (textureId M) (cat_simple M cat)) 0%Z) (bindings M 0 tr) /\
  exists tex, In (8%Z, GL_TEXTURE_CUBE_MAP, tex) (bindings M 0 tr).
Proof.
  intros H8 tr. unfold tr. rewrite RenderProps.bindings_model_calls. cbv zeta.
  split.
  - apply in_app_iff. right. apply in_app_iff. left. apply in_map_iff. exists 7%nat.
    split; [reflexivity|apply in_seq; lia].
  - destruct (cat_cube M cat) as [|c0 cs] eqn:Ec.
    + eexists. apply in_app_iff. right. apply in_app_iff. right. apply in_app_iff. right.
      apply in_app_iff. right. apply in_map_iff. exists 0%nat.
      split; [reflexivity|apply in_seq; cbn [length]; lia].
    + eexists. apply in_app_iff. right. apply in_app_iff. right. apply in_app_iff. right.
      apply in_app_iff. left. apply in_map_iff. exists 0%nat.
      split; [reflexivity|apply in_seq; cbn [length]; lia].
Qed.

End RenderExtra.
Lemma render_uniforms_in_use_witness :
  let rm := sample_rm [sample_light "l1" 10 11 SIMPLE; sample_light "l2" 12 13 CUBE] in
  Forall (fun l => 0 <= getLightShaderId unit l)%Z (StdMap.values (registeredLights unit rm)) /\
  Forall (fun m => 0 <= getModelShaderId unit m)%Z (StdMap.values (registeredModels unit rm)) /\
  uniforms_in_use unit None (fst (render unit unit_mul tt rm 1)) = true.
Proof.
  intros rm.
  assert (Hl : Forall (fun l => 0 <= getLightShaderId unit l)%Z
                 (StdMap.values (registeredLights unit rm)))
    by (vm_compute; repeat constructor; discriminate).
  assert (Hm : Forall (fun m => 0 <= getModelShaderId unit m)%Z
                 (StdMap.values (registeredModels unit rm)))
    by (vm_compute; repeat constructor; discriminate).
  split; [exact Hl|split; [exact Hm|]].
  exact (render_uniforms_in_use unit unit_mul tt rm 1 None Hl Hm).
Defined.

Lemma render_light_counts_witness :
  let rm := sample_rm [sample_light "l1" 10 11 SIMPLE; sample_light "l2" 12 13 CUBE;
                       sample_light "l3" 14 15 SIMPLE] in
  let cam := {| getCameraId := "main"; getViewMatrix := tt; getProjectionMatrix := tt |} in
  StdMap.find (activeCameraId unit rm) (registeredCameras unit rm) = Some cam /\
  uploads unit "simpleLightsCount" (fst (render unit unit_mul tt rm 1)) =
    map (fun m => (getModelShaderId unit m, UInt unit 2))
      (StdMap.values (registeredModels unit rm)).
Proof.
  intros rm cam.
  assert (Hc : StdMap.find (activeCameraId unit rm) (registeredCameras unit rm) = Some cam)
    by reflexivity.
  split; [exact Hc|].
  exact (proj1 (render_light_counts unit unit_mul tt rm 1 cam Hc)).
Defined.

Lemma render_time_uniforms_witness :
  let rm := sample_rm [sample_light "l1" 10 11 SIMPLE] in
  let rm1 := with_lastTime unit rm 3 in
  snd (render unit unit_mul tt rm 3) = Some rm1 /\
  uploads unit "timeDetails.deltaTime" (fst (render unit unit_mul tt rm1 5)) =
    map (fun m => (getModelShaderId unit m, UFloat unit (5 - 3)))
      (StdMap.values (registeredModels unit rm)).
Proof.
  intros rm rm1.
  assert (H : snd (render unit unit_mul tt rm 3) = Some rm1) by reflexivity.
  split; [exact H|].
  exact (proj1 (render_time_uniforms unit unit_mul tt rm rm1 3 5 H)).
Defined.

Lemma model_calls_unit8_shared_witness :
  let ls := [sample_light "s0" 10 20 SIMPLE; sample_light "s1" 11 21 SIMPLE;
             sample_light "s2" 12 22 SIMPLE; sample_light "s3" 13 23 SIMPLE;
             sample_light "s4" 14 24 SIMPLE; sample_light "s5" 15 25 SIMPLE;
             sample_light "s6" 16 26 SIMPLE; sample_light "s7" 17 27 SIMPLE;
             sample_light "c0" 18 28 CUBE] in
  let cat := sample_categorized ls in
  (8 <= length (cat_simple unit cat))%nat /\
  In (8%Z, GL_TEXTURE_2D, 27%Z) (bindings unit 0 (sample_model_calls ls)) /\
  exists tex, In (8%Z, GL_TEXTURE_CUBE_MAP, tex) (bindings unit 0 (sample_model_calls ls)).
Proof.
  intros ls cat.
  assert (H8 : (8 <= length (cat_simple unit cat))%nat) by (vm_compute; lia).
  split; [exact H8|].
  exact (model_calls_unit8_shared unit unit_mul tt (sample_rm ls) cat 0 0 tt tt sample_model H8).
Defined.

End RenderExtra.

(** ** Shot light bookkeeping, initialisation and movement *)
Module ShotExtra.
Import Shot.

Lemma find_insert_or_assign {V} (k k' : string) (v : V) (m : StdMap.t V) :
  StdMap.find k (StdMap.insert_or_assign k' v m) =
  if String.eqb k k' then Some v else StdMap.find k m.
Proof.
  unfold StdMap.insert_or_assign. rewrite StdMapFacts.find_insert_sorted_fresh.
  - rewrite StdMapFacts.find_erase. destruct (String.eqb k k'); reflexivity.
  - rewrite StdMapFacts.find_erase, String.eqb_refl. reflexivity.
Qed.

Lemma destroyShotLight_effect (s : ShotModel) (w : World) :
  let '(s', w') := destroyShotLight s w in
  self s' = self s /\ lastTime s' = lastTime s /\ shotLight s' = None /\
  isShotLightPresent w' = false /\ lastShotLightChange w' = lastShotLightChange w /\
  models w' = models w /\ model_heap w' = model_heap w /\
  light_heap w' = light_heap w /\ next_light w' = next_light w /\
  (forall k, StdMap.find k (lights w') =
     if is_held_id (held_light_id s w) k then None else StdMap.find k (lights w)).
Proof.
  unfold destroyShotLight, held_light_id.
  destruct (shotLight s) as [lp|]; [destruct (heap_get lp (light_heap w)) as [lo|]|];
    cbn; repeat split; try reflexivity; intros k; try reflexivity.
  unfold LightManager.deregisterLight.
  rewrite StdMapFacts.find_erase, (String.eqb_sym k (lightId lo)). reflexivity.
Qed.

Lemma createShotLight_effect (s : ShotModel) (w : World) (m : ModelState) :
  heap_get (self s) (model_heap w) = Some m ->
  let lp := next_light w in
  let id := (modelId m ++ "::ShotLight")%string in
  let '(s', w') := createShotLight s w in
  shotLight s' = Some lp /\
  heap_get lp (light_heap w') = Some {| lightId := id; lightPosition := modelPosition m |} /\
  isShotLightPresent w' = true /\
  StdMap.find id (lights w') = Some lp /\
  (forall k, k <> id -> StdMap.find k (lights w') =
     if is_held_id (held_light_id s w) k then None else StdMap.find k (lights w)) /\
  self s' = self s /\ lastTime s' = lastTime s /\ models w' = models w /\
  model_heap w' = model_heap w /\ lastShotLightChange w' = lastShotLightChange w.
Proof.
  intros Hm lp id. unfold createShotLight.
  pose proof (destroyShotLight_effect s w) as Hd.
  destruct (destroyShotLight s w) as [s1 w1].
  destruct Hd as [Hs [Ht [_ [_ [Hc [Hms [Hmh [_ [Hn Hf]]]]]]]]].
  rewrite Hs, Hmh, Hm. cbn. rewrite Hn, Nat.eqb_refl.
  unfold LightManager.registerLight. cbn [lightId].
  rewrite find_insert_or_assign, String.eqb_refl.
  repeat split; auto.
  intros k Hk. rewrite find_insert_or_assign.
  unfold id in Hk. destruct (String.eqb k _) eqn:E; [apply String.eqb_eq in E; contradiction|].
  apply Hf.
Qed.

Lemma updateShotLight_lights (s : ShotModel) (w : World) (m : ModelState) :
  heap_get (self s) (model_heap w) = Some m ->
  let '(s', w') := updateShotLight s w in
  if isShotLightPresent w then
    (shotLight s = None ->
       shotLight s' = Some (next_light w) /\
       heap_get (next_light w) (light_heap w') =
         Some {| lightId := modelId m ++ "::ShotLight"; lightPosition := modelPosition m |} /\
       StdMap.find (modelId m ++ "::ShotLight") (lights w') = Some (next_light w)) /\
    (forall lp lo, shotLight s = Some lp -> heap_get lp (light_heap w) = Some lo ->
       shotLight s' = Some lp /\
       heap_get lp (light_heap w') =
         Some {| lightId := lightId lo; lightPosition := modelPosition m |} /\
       lights w' = lights w)
  else
    shotLight s' = None /\
    (forall k, StdMap.find k (lights w') =
       if is_held_id (held_light_id s w) k then None else StdMap.find k (lights w)).
Proof.
  intros Hm. unfold updateShotLight.
  destruct (isShotLightPresent w) eqn:E.
  - destruct (shotLight s) as [lp0|] eqn:Es.
    + cbv beta iota. split; [intros H; discriminate H|]. intros lp lo Hlp Hlo. injection Hlp as <-.
      unfold move_shot_light. rewrite Es, Hm, Hlo. cbn.
      split; [reflexivity|split; [|reflexivity]].
      apply (ShotProps.heap_get_set_same _ lo). exact Hlo.
    + pose proof (createShotLight_effect s w m Hm) as Hc.
      destruct (createShotLight s w) as [s1 w1]. cbv beta iota.
      split; [|intros lp lo H; discriminate H]. intros _.
      destruct Hc as [H1 [H2 [_ [H4 [_ [H6 [_ [_ [H9 _]]]]]]]]].
      unfold move_shot_light. rewrite H1, H6, H9, Hm, H2. cbn.
      split; [reflexivity|split; [|exact H4]].
      apply (ShotProps.heap_get_set_same _ _ _ _ H2).
  - destruct (shotLight s) as [lp0|] eqn:Es.
    + pose proof (destroyShotLight_effect s w) as Hd.
      destruct (destroyShotLight s w) as [s1 w1].
      destruct Hd as [_ [_ [H3 [_ [_ [_ [_ [_ [_ Hf]]]]]]]]].
      split; [exact H3|exact Hf].
    + split; [exact Es|]. intros k. unfold held_light_id. rewrite Es. reflexivity.
Qed.


(** [createShotLight] replaces the light a shot holds: the shot then points
    to a new light object at the next free address, named after the shot's
    model id with "::ShotLight" and placed at the shot's position, that name
    is registered to it, the toggle is on, and every other registration stays
    as it was except the name of the light the shot held before, which is
    deregistered. *)
Theorem createShotLight_replaces_light (s : ShotModel) (w : World) (m : ModelState) :
  heap_get (self s) (model_heap w) = Some m ->
  let lp := next_light w in
  let id := (modelId m ++ "::ShotLight")%string in
  let '(s', w') := createShotLight s w in
  shotLight s' = Some lp /\
  heap_get lp (light_heap w') = Some {| lightId := id; lightPosition := modelPosition m |} /\
  isShotLightPresent w' = true /\
  StdMap.find id (lights w') = Some lp /\
  (forall k, k <> id -> StdMap.find k (lights w') =
     if is_held_id (held_light_id s w) k then None else StdMap.find k (lights w)).
Proof.
  intros Hm lp id. pose proof (createShotLight_effect s w m Hm) as Hc.
  destruct (createShotLight s w) as [s' w'].
  destruct Hc as [H1 [H2 [H3 [H4 [H5 _]]]]]. auto.
Qed.

(** [ShotModel::init] halves the shot's scale and keeps the shared toggle;
    with the toggle on it gives the shot a registered light at its position,
    with the toggle off it leaves the shot and the lights as they were. *)
Theorem init_scale_and_light (s : ShotModel) (w : World) (m : ModelState) :
  heap_get (self s) (model_heap w) = Some m ->
  let '(s', w') := init s w in
  heap_get (self s) (model_heap w') =
    Some (setModelScale m (mkVec3 (1 # 2) (1 # 2) (1 # 2))) /\
  isShotLightPresent w' = isShotLightPresent w /\
  (if isShotLightPresent w then
     shotLight s' = Some (next_light w) /\
     StdMap.find (modelId m ++ "::ShotLight") (lights w') = Some (next_light w) /\
     heap_get (next_light w) (light_heap w') =
       Some {| lightId := modelId m ++ "::ShotLight"; lightPosition := modelPosition m |}
   else s' = s /\ lights w' = lights w /\ light_heap w' = light_heap w).
Proof.
  intros Hm. unfold init. rewrite Hm.
  set (m' := setModelScale m _).
  set (w1 := set_model_heap w (heap_set (self s) m' (model_heap w))).
  assert (Hm1 : heap_get (self s) (model_heap w1) = Some m')
    by (apply (ShotProps.heap_get_set_same _ m); exact Hm).
  change (isShotLightPresent w1) with (isShotLightPresent w).
  destruct (isShotLightPresent w) eqn:E.
  - pose proof (createShotLight_effect s w1 m' Hm1) as Hc.
    destruct (createShotLight s w1) as [s' w'].
    destruct Hc as [H1 [H2 [H3 [H4 [_ [_ [_ [_ [H9 _]]]]]]]]].
    rewrite H9, H3. auto.
  - auto.
Qed.

(** [ShotModel::deinit] never changes the shared toggle.  With the toggle
    on it drops the shot's light and deregisters its name; with the toggle
    off it does nothing, so a light the shot still holds stays registered. *)
Theorem deinit_keeps_toggle (s : ShotModel) (w : World) :
  let '(s', w') := deinit s w in
  isShotLightPresent w' = isShotLightPresent w /\
  models w' = models w /\ model_heap w' = model_heap w /\
  shotLight s' = (if isShotLightPresent w then None else shotLight s) /\
  (forall k, StdMap.find k (lights w') =
     if isShotLightPresent w && is_held_id (held_light_id s w) k then None
     else StdMap.find k (lights w)).
Proof.
  unfold deinit. destruct (isShotLightPresent w) eqn:E.
  - pose proof (destroyShotLight_effect s w) as Hd.
    destruct (destroyShotLight s w) as [s1 w1].
    destruct Hd as [_ [_ [H3 [_ [_ [H6 [H7 [_ [_ Hf]]]]]]]]].
    cbn. auto.
  - cbn. auto.
Qed.

(** After a live update (the shot found and not beyond z = -50), the shot's
    light follows the toggle as the update left it: with the toggle on, a
    shot that had no light gets a new registered one at its new position, and
    a shot that had one keeps it, moved to its new position, with the light
    registry unchanged; with the toggle off the shot holds no light and only
    the name of the light it held is deregistered. *)
Theorem update_shot_light_follows (hc : ModelState -> ModelState -> bool) (t : Q) (k : bool)
    (s : ShotModel) (w : World) (m : ModelState) :
  heap_get (self s) (model_heap w) = Some m ->
  ~ (vz (modelPosition m) < -50)%Q ->
  let pos := vec3_sub (modelPosition m) (mkVec3 0 0 (100 * (t - lastTime s))) in
  let '(s', w') := update hc t k s w in
  if isShotLightPresent w' then
    (shotLight s = None ->
       shotLight s' = Some (next_light w) /\
       heap_get (next_light w) (light_heap w') =
         Some {| lightId := modelId m ++ "::ShotLight"; lightPosition := pos |} /\
       StdMap.find (modelId m ++ "::ShotLight") (lights w') = Some (next_light w)) /\
    (forall lp lo, shotLight s = Some lp -> heap_get lp (light_heap w) = Some lo ->
       shotLight s' = Some lp /\
       heap_get lp (light_heap w') = Some {| lightId := lightId lo; lightPosition := pos |} /\
       lights w' = lights w)
  else
    shotLight s' = None /\
    (forall k', StdMap.find k' (lights w') =
       if is_held_id (held_light_id s w) k' then None else StdMap.find k' (lights w)).
Proof.
  intros Hm Hz pos. unfold update. rewrite Hm, (ShotProps.Qltb_false _ _ Hz).
  set (w1 := if k && Qltb (1 # 2) (t - lastShotLightChange w)
             then set_toggle w (negb (isShotLightPresent w)) t else w).
  fold pos. set (m1 := setModelPosition m pos).
  set (w2 := set_model_heap w1 (heap_set (self s) m1 (model_heap w1))).
  assert (Hw2 : heap_get (self s) (model_heap w2) = Some m1).
  { unfold w2, w1. cbn [model_heap set_model_heap]. apply (ShotProps.heap_get_set_same _ m).
    destruct (k && _); exact Hm. }
  assert (E2 : next_light w2 = next_light w /\ light_heap w2 = light_heap w /\
               lights w2 = lights w)
    by (unfold w2, w1; destruct (k && _); repeat split).
  destruct E2 as [En [Eh El]].
  pose proof (updateShotLight_lights s w2 m1 Hw2) as Hu.
  pose proof (ShotProps.updateShotLight_toggle s w2 m1 Hw2) as Ht.
  destruct (updateShotLight s w2) as [s3 w3]. cbn [snd] in Ht.
  destruct (ShotProps.collision_scan_frame hc (self s3) (ModelManager.getAllModels w3) w3)
    as [_ [Hl [Hlh [Hp _]]]].
  cbn [shotLight]. rewrite Hp, Hl, Hlh, Ht.
  unfold held_light_id in *. rewrite En, Eh, El in Hu.
  exact Hu.
Qed.


Lemma createShotLight_replaces_light_witness :
  heap_get 0%nat (model_heap sample_world_enemies) =
    Some (sample_model_state "shot0" "Shot" 0) /\
  let '(s', w') := createShotLight sample_shot sample_world_enemies in
  shotLight s' = Some 100%nat /\
  heap_get 100%nat (light_heap w') =
    Some {| lightId := "shot0::ShotLight"; lightPosition := mkVec3 0 0 0 |} /\
  isShotLightPresent w' = true /\
  StdMap.find "shot0::ShotLight" (lights w') = Some 100%nat /\
  (forall k, k <> "shot0::ShotLight" -> StdMap.find k (lights w') =
     if is_held_id (held_light_id sample_shot sample_world_enemies) k then None
     else StdMap.find k (lights sample_world_enemies)).
Proof.
  assert (Hm : heap_get 0%nat (model_heap sample_world_enemies) =
                 Some (sample_model_state "shot0" "Shot" 0)) by reflexivity.
  split; [exact Hm|].
  exact (createShotLight_replaces_light sample_shot sample_world_enemies _ Hm).
Defined.

Lemma init_scale_and_light_witness :
  heap_get 0%nat (model_heap sample_world_enemies) =
    Some (sample_model_state "shot0" "Shot" 0) /\
  let '(s', w') := init sample_shot sample_world_enemies in
  heap_get 0%nat (model_heap w') =
    Some (setModelScale (sample_model_state "shot0" "Shot" 0)
            (mkVec3 (1 # 2) (1 # 2) (1 # 2))) /\
  isShotLightPresent w' = true /\
  shotLight s' = Some 100%nat /\
  StdMap.find "shot0::ShotLight" (lights w') = Some 100%nat /\
  heap_get 100%nat (light_heap w') =
    Some {| lightId := "shot0::ShotLight"; lightPosition := mkVec3 0 0 0 |}.
Proof.
  assert (Hm : heap_get 0%nat (model_heap sample_world_enemies) =
                 Some (sample_model_state "shot0" "Shot" 0)) by reflexivity.
  split; [exact Hm|].
  exact (init_scale_and_light sample_shot sample_world_enemies _ Hm).
Defined.

(** A live update at t = 0.01 of a shot that has no light yet, at z = 0
    with the toggle on: the shot gets the light 100, registered under
    "shot0::ShotLight" and placed at z = -1. *)
Lemma update_shot_light_follows_witness :
  heap_get 0%nat (model_heap sample_world_enemies) =
    Some (sample_model_state "shot0" "Shot" 0) /\
  ~ (vz (modelPosition (sample_model_state "shot0" "Shot" 0)) < -50)%Q /\
  let '(s', w') := update sample_collide (1 # 100) false sample_shot sample_world_enemies in
  if isShotLightPresent w' then
    (shotLight sample_shot = None ->
       shotLight s' = Some 100%nat /\
       heap_get 100%nat (light_heap w') =
         Some {| lightId := "shot0::ShotLight";
                 lightPosition := vec3_sub (mkVec3 0 0 0) (mkVec3 0 0 (100 * ((1 # 100) - 0))) |} /\
       StdMap.find "shot0::ShotLight" (lights w') = Some 100%nat) /\
    (forall lp lo, shotLight sample_shot = Some lp ->
       heap_get lp (light_heap sample_world_enemies) = Some lo ->
       shotLight s' = Some lp /\
       heap_get lp (light_heap w') =
         Some {| lightId := lightId lo;
                 lightPosition := vec3_sub (mkVec3 0 0 0) (mkVec3 0 0 (100 * ((1 # 100) - 0))) |} /\
       lights w' = lights sample_world_enemies)
  else
    shotLight s' = None /\
    (forall k', StdMap.find k' (lights w') =
       if is_held_id (held_light_id sample_shot sample_world_enemies) k' then None
       else StdMap.find k' (lights sample_world_enemies)).
Proof.
  assert (Hm : heap_get 0%nat (model_heap sample_world_enemies) =
                 Some (sample_model_state "shot0" "Shot" 0)) by reflexivity.
  assert (Hz : ~ (vz (modelPosition (sample_model_state "shot0" "Shot" 0)) < -50)%Q)
    by (vm_compute; intros H; discriminate H).
  split; [exact Hm|split; [exact Hz|]].
  exact (update_shot_light_follows sample_collide (1 # 100) false sample_shot
           sample_world_enemies _ Hm Hz).
Defined.


End ShotExtra.
